(** * DateValidationDirective: incremental date-text parser

    Shallow embedding of [src/app/directives/date-validation.directive copy.ts]
    (class [DateValidationDirective]).  The directive keeps three string
    fields ([day], [month], [year]) and a committed [date]; every keystroke
    passes through [restrictInput], focus loss through [clearDateIfNotValid].

    JavaScript strings are modelled as lists of characters, indices and
    lengths as [nat] (every index the directive computes is a position or a
    sum of lengths, hence never negative), numbers produced by [Number(...)]
    as [option Z] where [None] stands for NaN.  The functions take the
    stored fields as an explicit [state] and return the new state together
    with the text they produce. *)

From Stdlib Require Import String Ascii List ZArith Lia Bool Arith.
Import ListNotations.

(** ** JavaScript string primitives *)

Module JS.

Definition jsstring := list ascii.

(** String literal. *)
Definition js (s : string) : jsstring := list_ascii_of_string s.

Definition slash : ascii := "/"%char.
Definition zero : ascii := "0"%char.

Definition is_slash (c : ascii) : bool := Ascii.eqb c slash.
Definition is_zero (c : ascii) : bool := Ascii.eqb c zero.

Definition is_digit (c : ascii) : bool :=
  (48 <=? nat_of_ascii c)%nat && (nat_of_ascii c <=? 57)%nat.

Definition digit_val (c : ascii) : Z := Z.of_nat (nat_of_ascii c) - 48.

(** [!s] on a string: only the empty string is falsy. *)
Definition isEmpty (s : jsstring) : bool :=
  match s with [] => true | _ :: _ => false end.

(** [!n] on an index: only [0] is falsy. *)
Definition absent (n : nat) : bool := Nat.eqb n 0.

(** [s.slice(a)]. *)
Definition sliceFrom (s : jsstring) (a : nat) : jsstring := skipn a s.

(** [s.slice(a, b)]: empty when [b <= a], clamped to the string. *)
Definition slice (s : jsstring) (a b : nat) : jsstring :=
  firstn (b - a) (skipn a s).

(** [s.substring(a, b)]: like [slice] but the bounds are swapped when
    [a > b]; a negative bound counts as [0], which truncated subtraction on
    [nat] reproduces for [value.length - 1]. *)
Definition substring (s : jsstring) (a b : nat) : jsstring :=
  firstn (Nat.max a b - Nat.min a b) (skipn (Nat.min a b) s).

(** [a === b] on strings. *)
Definition strictEq (a b : jsstring) : bool :=
  if list_eq_dec ascii_dec a b then true else false.

(** [s[0] === c]; [s[0]] is [undefined] on the empty string. *)
Definition firstIs (c : ascii) (s : jsstring) : bool :=
  match s with [] => false | x :: _ => Ascii.eqb x c end.

(** [(s.match(/\//g) || []).length]. *)
Definition countSlashes (s : jsstring) : nat :=
  length (filter is_slash s).

(** [s.replace(/[^0-9/]/g, '')]. *)
Definition stripIllegal (s : jsstring) : jsstring :=
  filter (fun c => is_digit c || is_slash c) s.

(** The text left after the match of [/^0+/]. *)
Fixpoint dropZeros (s : jsstring) : jsstring :=
  match s with
  | [] => []
  | c :: s' => if is_zero c then dropZeros s' else s
  end.

(** [/^0+/.test(s)]. *)
Definition testLeadingZeros (s : jsstring) : bool := firstIs zero s.

(** [s.replace(/^0+/, r)]. *)
Definition replaceLeadingZeros (s r : jsstring) : jsstring :=
  if testLeadingZeros s then r ++ dropZeros s else s.

(** ** Numbers

    [Number(s)] on the strings the directive builds, which contain only
    digits and slashes once [stripIllegal] has run (lemma
    [restrictInput_legal] below): the empty string is [0], a run of digits
    is its decimal value, anything else is NaN.  Comparisons with NaN are
    false.  The value is kept exact; the rounding JavaScript applies to
    very long digit runs cannot change a comparison with the small integer
    bounds used here. *)

Definition num := option Z.

Fixpoint digitsValue (acc : Z) (s : jsstring) : num :=
  match s with
  | [] => Some acc
  | c :: s' => if is_digit c then digitsValue (10 * acc + digit_val c) s' else None
  end.

Definition Number (s : jsstring) : num := digitsValue 0 s.

Definition gtNum (n : num) (k : Z) : bool :=
  match n with Some v => (k <? v)%Z | None => false end.

Definition ltNum (n : num) (k : Z) : bool :=
  match n with Some v => (v <? k)%Z | None => false end.

(** [list.includes(n)]. *)
Definition includes (l : list Z) (n : num) : bool :=
  match n with Some v => existsb (Z.eqb v) l | None => false end.

End JS.

Import JS.

(** ** The directive *)

Inductive DateFormat := MDY | DMY.

(** The [@Input()] properties. *)
Record config := mkConfig {
  dateFormat : DateFormat;
  startYear : Z;
  endYear : Z
}.

Definition defaultConfig : config := mkConfig MDY 1000 9999.

(** The mutable fields. *)
Record state := mkState {
  day : jsstring;
  month : jsstring;
  year : jsstring;
  date : jsstring
}.

Definition initial : state := mkState [] [] [] [].

Definition setDay (s : state) (v : jsstring) : state :=
  mkState v (month s) (year s) (date s).
Definition setMonth (s : state) (v : jsstring) : state :=
  mkState (day s) v (year s) (date s).
Definition setYear (s : state) (v : jsstring) : state :=
  mkState (day s) (month s) v (date s).
Definition setDate (s : state) (v : jsstring) : state :=
  mkState (day s) (month s) (year s) v.

(** [findSlashPosition]: the loop, with [i] the current index and [count]
    the slashes seen so far. *)
Fixpoint findSlashFrom (value : jsstring) (i count limit : nat) : nat :=
  match value with
  | [] => 0
  | c :: rest =>
      if is_slash c then
        if Nat.eqb (S count) limit then i
        else findSlashFrom rest (S i) (S count) limit
      else findSlashFrom rest (S i) count limit
  end.

Definition findSlashPosition (value : jsstring) (limit : nat) : nat :=
  findSlashFrom value 0 0 limit.

Definition removeSlashAfterThirdOccurrence (value : jsstring) : jsstring :=
  let position := findSlashPosition value 3 in
  if (0 <? position)%nat then substring value 0 position else value.

Definition checkSlashPosition (value : jsstring) : jsstring :=
  if firstIs slash value then []
  else if (2 <? countSlashes value)%nat then removeSlashAfterThirdOccurrence value
  else value.

Definition checkIsLeapYear (leapYear : jsstring) : bool :=
  match Number leapYear with
  | Some y => ((y mod 4 =? 0) && negb (y mod 100 =? 0) || (y mod 400 =? 0))%Z
  | None => false
  end.

Definition februaryDays : Z := 29.
Definition thirtyDaysMonths : list Z := [4; 6; 9; 11]%Z.
Definition thirtyOneDaysMonths : list Z := [1; 3; 5; 7; 8; 10; 12]%Z.

(** [getNoOfDays(month)]; callers that omit the argument pass [this.month]. *)
Definition getNoOfDays (month : jsstring) : Z :=
  if isEmpty month then 31
  else if includes thirtyOneDaysMonths (Number month) then 31
  else if includes thirtyDaysMonths (Number month) then 30
  else februaryDays.

Definition removeLeadingZero (input : jsstring) : jsstring :=
  if gtNum (Number input) 9 then
    if testLeadingZeros input then replaceLeadingZeros input []
    else replaceLeadingZeros input [zero]
  else replaceLeadingZeros input [zero].

Definition validateMonthIfBeforeDay (s : state) (value : jsstring)
    (monthDateDivider : nat) : state * jsstring :=
  let month_ := if absent monthDateDivider then value
                else slice value 0 monthDateDivider in
  if gtNum (Number month_) 12 then (s, month s)
  else
    let s' := setMonth s (removeLeadingZero month_) in
    (s', month s' ++ sliceFrom value (length month_)).

Definition validateDayIfBeforeMonth (s : state) (value : jsstring)
    (monthDateDivider : nat) : state * jsstring :=
  let day_ := if absent monthDateDivider then value
              else slice value 0 monthDateDivider in
  if gtNum (Number day_) 31 then (s, day s)
  else
    let s' := setDay s (removeLeadingZero day_) in
    (s', day s' ++ sliceFrom value (length day_)).

Definition validateMonthIfAfterDay (s : state) (value : jsstring)
    (monthDateDivider dateYearDivider : nat) : state * jsstring :=
  let limit := monthDateDivider + 1 in
  let monthStartIndex := length (day s) + 1 in
  let valueBeforeMonthDateDivider := slice value 0 limit in
  let month_ := if absent dateYearDivider then sliceFrom value limit
                else slice value limit dateYearDivider in
  if strictEq (day s) [zero] then
    (s, slice value 0 monthDateDivider)
  else if isEmpty month_ then
    (s, valueBeforeMonthDateDivider)
  else if gtNum (Number month_) 12
          || gtNum (Number (day s)) (getNoOfDays month_) then
    (s, valueBeforeMonthDateDivider ++ month s)
  else
    let s' := setMonth s (removeLeadingZero month_) in
    (s', slice value 0 monthStartIndex ++ month s'
         ++ sliceFrom value (monthStartIndex + length month_)).

Definition validateDayIfAfterMonth (s : state) (value : jsstring)
    (monthDateDivider dateYearDivider : nat) : state * jsstring :=
  let limit := monthDateDivider + 1 in
  let totalDays := getNoOfDays (month s) in
  let dayStartIndex := length (month s) + 1 in
  let valueBeforeMonthDateDivider := slice value 0 limit in
  let day_ := if absent dateYearDivider then sliceFrom value limit
              else slice value limit dateYearDivider in
  if strictEq (month s) [zero] then
    (s, slice value 0 monthDateDivider)
  else if isEmpty day_ then
    (s, valueBeforeMonthDateDivider)
  else if gtNum (Number day_) totalDays then
    (s, valueBeforeMonthDateDivider ++ day s)
  else
    let s' := setDay s (removeLeadingZero day_) in
    (s', slice value 0 dayStartIndex ++ day s'
         ++ sliceFrom value (dayStartIndex + length day_)).

Definition rearrangeBasedOnDateFormat (cfg : config) (s : state)
    (value : jsstring) (monthDateDivider dateYearDivider : nat)
    : state * jsstring :=
  let firstProcess s value :=
    match dateFormat cfg with
    | MDY => validateMonthIfBeforeDay s value monthDateDivider
    | DMY => validateDayIfBeforeMonth s value monthDateDivider
    end in
  let secondProcess s value :=
    match dateFormat cfg with
    | MDY => validateDayIfAfterMonth s value monthDateDivider dateYearDivider
    | DMY => validateMonthIfAfterDay s value monthDateDivider dateYearDivider
    end in
  let (s1, v1) := firstProcess s value in
  if absent monthDateDivider then (s1, v1) else secondProcess s1 v1.

Definition isFebruary (m : jsstring) : bool :=
  strictEq m (js "2") || strictEq m (js "02").

Definition validateYear (cfg : config) (s : state) (value : jsstring)
    (dateYearDivider : nat) : state * jsstring :=
  let year_ := if absent dateYearDivider then []
               else sliceFrom value (dateYearDivider + 1) in
  let previousValue := substring value 0 (dateYearDivider + 1) ++ year s in
  if strictEq (day s) [zero] || strictEq (month s) [zero]
  then (s, slice value 0 dateYearDivider)
  else if isEmpty year_ then (setYear s year_, value)
  else
    let yearInNumber := Number year_ in
    if firstIs zero year_
       || ((4 <=? length year_)%nat && ltNum yearInNumber (startYear cfg)
           || gtNum yearInNumber (endYear cfg))
    then (s, previousValue)
    else if isFebruary (month s)
            && strictEq (day s) (js "29")
            && Nat.eqb (length year_) 4
            && negb (checkIsLeapYear year_)
    then (s, substring value 0 (length value - 1))
    else (setYear s year_, value).

Definition clearSpecificPartOfDateIfEmpty (cfg : config) (s : state)
    (monthDateDivider dateYearDivider : nat) : state :=
  let s1 :=
    match dateFormat cfg with
    | DMY => setMonth s (if absent monthDateDivider then [] else month s)
    | MDY => setDay s (if absent monthDateDivider then [] else day s)
    end in
  setYear s1 (if absent dateYearDivider then [] else year s1).

(** [restrictInput] is the [process] operation: the new state and the text
    written back to the field. *)
Definition restrictInput (cfg : config) (s : state) (value : jsstring)
    : state * jsstring :=
  let monthDateDivider := findSlashPosition value 1 in
  let DateYearDivider := findSlashPosition value 2 in
  let (s1, v1) :=
    rearrangeBasedOnDateFormat cfg s
      (stripIllegal (checkSlashPosition value))
      monthDateDivider DateYearDivider in
  let (s2, v2) :=
    if absent DateYearDivider then (s1, v1)
    else validateYear cfg s1 v1 DateYearDivider in
  let s3 := clearSpecificPartOfDateIfEmpty cfg s2 monthDateDivider DateYearDivider in
  (s3, substring v2 0 10).

(** [clearDateIfNotValid] is the [finalize] operation; [display] is the
    text currently shown in the field. *)
Definition clearDateIfNotValid (cfg : config) (s : state) (display : jsstring)
    : state * jsstring :=
  if isEmpty (day s) || isEmpty (month s)
     || ltNum (Number (year s)) (startYear cfg)
     || gtNum (Number (year s)) (endYear cfg)
  then (s, [])
  else (setDate s (day s ++ [slash] ++ month s ++ [slash] ++ year s), display).

(** How one keystroke may change a stored field: the day and the month
    are kept, cleared, or replaced by a normalised candidate; the year is
    kept or replaced by a text without a leading zero. *)
Definition fieldStep (old new : jsstring) : Prop :=
  new = old \/ new = [] \/ exists c, new = removeLeadingZero c.

Definition yearStep (old new : jsstring) : Prop :=
  new = old \/ firstIs zero new = false.

Definition stateStep (s s' : state) : Prop :=
  fieldStep (day s) (day s') /\ fieldStep (month s) (month s') /\
  yearStep (year s) (year s') /\ date s' = date s.

(** The part of [restrictInput] that follows the separator scan and the
    sanitisation: [value] is the sanitised text, [d1] and [d2] the two
    separator positions found in the raw text. *)
Definition processWith (cfg : config) (s : state) (value : jsstring)
    (d1 d2 : nat) : state * jsstring :=
  let (s1, v1) := rearrangeBasedOnDateFormat cfg s value d1 d2 in
  let (s2, v2) :=
    if absent d2 then (s1, v1) else validateYear cfg s1 v1 d2 in
  (clearSpecificPartOfDateIfEmpty cfg s2 d1 d2, substring v2 0 10).


(** Texts made of digits and separators only, the alphabet left by
    [stripIllegal]. *)
Definition legalChar (c : ascii) : Prop := is_digit c || is_slash c = true.
Definition Legal (s : jsstring) : Prop := Forall legalChar s.
Definition LegalState (s : state) : Prop :=
  Legal (day s) /\ Legal (month s) /\ Legal (year s).

(** The leap-year rule on a number. *)
Definition leap (n : Z) : Prop :=
  (n mod 4 = 0 /\ n mod 100 <> 0)%Z \/ (n mod 400 = 0)%Z.

(** A field that begins with two zeros. *)
Definition doubleZero (s : jsstring) : bool :=
  match s with
  | a :: b :: _ => is_zero a && is_zero b
  | _ => false
  end.


(** ** The event handlers

    [updateDate] writes the restricted text back to the field; the input
    handler does just that, the blur and focus handlers then run
    [clearDateIfNotValid].  The pair returned is the new state and the text
    left in the field. *)

Definition updateDate (cfg : config) (s : state) (value : jsstring)
    : state * jsstring :=
  restrictInput cfg s value.

Definition onInput (cfg : config) (s : state) (value : jsstring)
    : state * jsstring :=
  updateDate cfg s value.

Definition onFocus (cfg : config) (s : state) (value : jsstring)
    : state * jsstring :=
  let (s1, shown) := updateDate cfg s value in
  clearDateIfNotValid cfg s1 shown.

Definition onBlur (cfg : config) (s : state) (value : jsstring)
    : state * jsstring :=
  let (s1, shown) := updateDate cfg s value in
  clearDateIfNotValid cfg s1 shown.

(** ** Vocabulary for the properties below *)

(** The stored month does not exceed 12 nor the stored day 31. *)
Definition inBounds (s : state) : Prop :=
  gtNum (Number (month s)) 12 = false /\ gtNum (Number (day s)) 31 = false.

(** A year text that passes the format and range test of [validateYear]. *)
Definition yearOk (cfg : config) (y : jsstring) : Prop :=
  firstIs zero y = false /\
  gtNum (Number y) (endYear cfg) = false /\
  ((4 <=? length y)%nat && ltNum (Number y) (startYear cfg) = false).

(** The day and the month in the order of the display format. *)
Definition firstField (cfg : config) (d m : jsstring) : jsstring :=
  match dateFormat cfg with MDY => m | DMY => d end.

Definition secondField (cfg : config) (d m : jsstring) : jsstring :=
  match dateFormat cfg with MDY => d | DMY => m end.

(** The largest value the first validator lets through. *)
Definition firstMax (cfg : config) : Z :=
  match dateFormat cfg with MDY => 12 | DMY => 31 end.

Definition storedFirst (cfg : config) (s : state) : jsstring :=
  match dateFormat cfg with MDY => month s | DMY => day s end.

Definition storedSecond (cfg : config) (s : state) : jsstring :=
  match dateFormat cfg with MDY => day s | DMY => month s end.

(** The state whose first field (in display order) is [f], whose second
    field is [g], and whose year is empty. *)
Definition withFields (cfg : config) (s : state) (f g : jsstring) : state :=
  match dateFormat cfg with
  | MDY => mkState g f [] (date s)
  | DMY => mkState f g [] (date s)
  end.

(** The test on which the second validator puts the stored value back,
    for a first field [f] already stored and a candidate [g]. *)
Definition secondRejected (cfg : config) (f g : jsstring) : bool :=
  match dateFormat cfg with
  | MDY => gtNum (Number g) (getNoOfDays f)
  | DMY => gtNum (Number g) 12 || gtNum (Number f) (getNoOfDays g)
  end.

(** A day and a month, typed in normal form, that the validators accept:
    digits only, neither empty nor "0", month at most 12, day at most the
    number of days of the month. *)
Definition goodDayMonth (d m : jsstring) : Prop :=
  d <> [] /\ m <> [] /\ d <> [zero] /\ m <> [zero] /\
  removeLeadingZero d = d /\ removeLeadingZero m = m /\
  exists a b, Number m = Some a /\ Number d = Some b /\
              (a <= 12)%Z /\ (b <= getNoOfDays m)%Z.

(** A year text [validateYear] accepts next to that day and month: digits
    only, no leading zero, not above [endYear], not below [startYear] once
    four characters long, and a leap year for February 29. *)
Definition goodYear (cfg : config) (d m y : jsstring) : Prop :=
  firstIs zero y = false /\
  exists c, Number y = Some c /\ (c <= endYear cfg)%Z /\
            (4 <= length y -> (startYear cfg <= c)%Z) /\
            (isFebruary m = true -> d = js "29" -> length y = 4 -> leap c).

(** ** The stages of one keystroke

    Names for the intermediate results of [restrictInput]: the state and
    text after the first validator, after both validators, and the
    candidates the second validator and [validateYear] cut out of them. *)










(** ** Proof automation *)

Create HintDb steps.
Create HintDb legal.

(** Reduce record projections and setters only. *)
Ltac norm :=
  cbn [fst snd day month year date setDay setMonth setYear dateFormat
       startYear endYear] in *.

(** Case analysis on the condition of one conditional of the goal. *)
Ltac split_if :=
  match goal with
  | |- context [if ?c then _ else _] => destruct c eqn:?
  end.

Ltac split_ifs := repeat split_if.

Ltac unfold_process :=
  unfold processWith, rearrangeBasedOnDateFormat,
    clearSpecificPartOfDateIfEmpty, validateYear, validateMonthIfBeforeDay,
    validateDayIfBeforeMonth, validateMonthIfAfterDay, validateDayIfAfterMonth.

(** * Properties *)

(** ** Facts about the string primitives *)

Section StringFacts.

Lemma strictEq_true (a b : jsstring) : strictEq a b = true <-> a = b.
Proof.
  unfold strictEq. destruct (list_eq_dec ascii_dec a b); split; congruence.
Qed.

Lemma strictEq_false (a b : jsstring) : strictEq a b = false <-> a <> b.
Proof.
  unfold strictEq. destruct (list_eq_dec ascii_dec a b); split; congruence.
Qed.

Lemma strictEq_refl (a : jsstring) : strictEq a a = true.
Proof. now apply strictEq_true. Qed.

Lemma isEmpty_true (s : jsstring) : isEmpty s = true <-> s = [].
Proof. destruct s; simpl; split; congruence. Qed.

Lemma isEmpty_false (s : jsstring) : isEmpty s = false <-> s <> [].
Proof. destruct s; simpl; split; congruence. Qed.

Lemma absent_true (n : nat) : absent n = true <-> n = 0.
Proof. apply Nat.eqb_eq. Qed.

Lemma absent_false (n : nat) : absent n = false <-> n <> 0.
Proof. apply Nat.eqb_neq. Qed.

Lemma substring_0 (s : jsstring) (n : nat) : substring s 0 n = firstn n s.
Proof. unfold substring. simpl. now rewrite Nat.sub_0_r. Qed.

Lemma slice_0 (s : jsstring) (n : nat) : slice s 0 n = firstn n s.
Proof. unfold slice. simpl. now rewrite Nat.sub_0_r. Qed.

Lemma slice_nil (a b : nat) : slice [] a b = [].
Proof. unfold slice. now rewrite skipn_nil, firstn_nil. Qed.

Lemma sliceFrom_nil (a : nat) : sliceFrom [] a = [].
Proof. apply skipn_nil. Qed.

Lemma substring_length (s : jsstring) (n : nat) : length (substring s 0 n) <= n.
Proof. rewrite substring_0. apply firstn_le_length. Qed.

Lemma countSlashes_cons (c : ascii) (s : jsstring) :
  countSlashes (c :: s) = (if is_slash c then 1 else 0) + countSlashes s.
Proof. unfold countSlashes. simpl. now destruct (is_slash c). Qed.

Lemma countSlashes_app (a b : jsstring) :
  countSlashes (a ++ b) = countSlashes a + countSlashes b.
Proof. unfold countSlashes. now rewrite filter_app, length_app. Qed.

Lemma dropZeros_no_zero (s : jsstring) : firstIs zero (dropZeros s) = false.
Proof.
  induction s as [|c s IH]; simpl; auto.
  destruct (is_zero c) eqn:E; auto.
Qed.

Lemma dropZeros_id (s : jsstring) : firstIs zero s = false -> dropZeros s = s.
Proof.
  destruct s as [|c s]; simpl; auto.
  unfold is_zero. now intros ->.
Qed.

End StringFacts.

(** ** Locating the separators *)

Section SlashScan.

(** The scan finds the [limit]-th slash whenever the text still holds
    enough of them: the returned index is a slash and exactly [limit - 1]
    slashes come before it. *)
Lemma findSlashFrom_found (value : jsstring) :
  forall i count limit,
    count < limit -> limit <= count + countSlashes value ->
    exists pre post,
      value = pre ++ slash :: post /\
      findSlashFrom value i count limit = i + length pre /\
      count + countSlashes pre + 1 = limit.
Proof.
  induction value as [|c rest IH]; intros i count limit Hlt Hle.
  - unfold countSlashes in Hle; simpl in Hle; lia.
  - rewrite countSlashes_cons in Hle. cbn [findSlashFrom].
    destruct (is_slash c) eqn:Hc.
    + assert (c = slash) by (now apply Ascii.eqb_eq). subst c.
      destruct (Nat.eqb (S count) limit) eqn:Hl.
      * apply Nat.eqb_eq in Hl. exists [], rest.
        unfold countSlashes; simpl. repeat split; lia.
      * apply Nat.eqb_neq in Hl.
        destruct (IH (S i) (S count) limit) as (pre & post & E & F & G); try lia.
        exists (slash :: pre), post. subst rest. rewrite F.
        rewrite countSlashes_cons. simpl. repeat split; lia.
    + destruct (IH (S i) count limit) as (pre & post & E & F & G); try lia.
      exists (c :: pre), post. subst rest. rewrite F.
      rewrite countSlashes_cons, Hc. simpl. repeat split; lia.
Qed.

(** When the text holds fewer slashes than asked for, the scan falls off
    the end and answers [0]. *)
Lemma findSlashFrom_missing (value : jsstring) :
  forall i count limit,
    count + countSlashes value < limit ->
    findSlashFrom value i count limit = 0.
Proof.
  induction value as [|c rest IH]; intros i count limit H;
    cbn [findSlashFrom]; auto.
  rewrite countSlashes_cons in H.
  destruct (is_slash c).
  - destruct (Nat.eqb (S count) limit) eqn:Hl.
    + apply Nat.eqb_eq in Hl. lia.
    + apply IH. lia.
  - apply IH. simpl in H. lia.
Qed.

Lemma firstn_length_app (pre post : jsstring) :
  firstn (length pre) (pre ++ post) = pre.
Proof.
  rewrite firstn_app, Nat.sub_diag, firstn_all. simpl. apply app_nil_r.
Qed.

Lemma firstIs_slash_count (value : jsstring) :
  firstIs slash value = false -> forall pre post,
  value = pre ++ slash :: post -> 0 < length pre.
Proof.
  intros H pre post ->. destruct pre; simpl in *; [discriminate | lia].
Qed.

End SlashScan.

(** C10, [checkSlashPosition]: the sanitised text never holds more than two
    slashes; a text that starts with a slash becomes empty, a text with
    more than two slashes is cut just before its third slash, any other
    text is returned as it is. *)
Theorem checkSlashPosition_at_most_two (value : jsstring) :
  countSlashes (checkSlashPosition value) <= 2 /\
  (firstIs slash value = true -> checkSlashPosition value = []) /\
  (firstIs slash value = false -> 2 < countSlashes value ->
     exists pre post,
       value = pre ++ slash :: post /\ countSlashes pre = 2 /\
       findSlashPosition value 3 = length pre /\
       checkSlashPosition value = pre) /\
  (firstIs slash value = false -> countSlashes value <= 2 ->
     checkSlashPosition value = value).
Proof.
  assert (Third : firstIs slash value = false -> 2 < countSlashes value ->
     exists pre post,
       value = pre ++ slash :: post /\ countSlashes pre = 2 /\
       findSlashPosition value 3 = length pre /\
       checkSlashPosition value = pre).
  { intros Hf Hc.
    destruct (findSlashFrom_found value 0 0 3) as (pre & post & E & F & G); try lia.
    exists pre, post. simpl in F, G.
    assert (Hp : 0 < length pre) by (eapply firstIs_slash_count; eauto).
    repeat split; auto; try lia.
    unfold checkSlashPosition, removeSlashAfterThirdOccurrence.
    rewrite Hf. apply Nat.ltb_lt in Hc. rewrite Hc.
    unfold findSlashPosition. rewrite F.
    apply Nat.ltb_lt in Hp. rewrite Hp.
    rewrite substring_0, E. apply firstn_length_app. }
  split; [|split; [|split]]; auto.
  - unfold checkSlashPosition at 1.
    destruct (firstIs slash value) eqn:Hf.
    + unfold countSlashes; simpl; lia.
    + destruct (2 <? countSlashes value) eqn:Hc.
      * apply Nat.ltb_lt in Hc.
        destruct (Third eq_refl Hc) as (pre & post & _ & C & _ & R).
        unfold checkSlashPosition in R.
        rewrite Hf in R. apply Nat.ltb_lt in Hc. rewrite Hc in R.
        rewrite R. lia.
      * apply Nat.ltb_ge in Hc. exact Hc.
  - intros Hf. unfold checkSlashPosition. now rewrite Hf.
  - intros Hf Hc. unfold checkSlashPosition. rewrite Hf.
    apply Nat.ltb_ge in Hc. now rewrite Hc.
Qed.

Lemma checkSlashPosition_at_most_two_witness :
  checkSlashPosition (js "/1/2") = [] /\
  (exists pre post,
     js "1/2/3/4" = pre ++ slash :: post /\ countSlashes pre = 2 /\
     findSlashPosition (js "1/2/3/4") 3 = length pre /\
     checkSlashPosition (js "1/2/3/4") = pre) /\
  checkSlashPosition (js "1/2/3") = js "1/2/3".
Proof.
  destruct (checkSlashPosition_at_most_two (js "1/2/3/4")) as (_ & _ & B & _).
  destruct (checkSlashPosition_at_most_two (js "/1/2")) as (_ & C & _).
  destruct (checkSlashPosition_at_most_two (js "1/2/3")) as (_ & _ & _ & D).
  split; [apply C; reflexivity|].
  split; [apply B; [reflexivity | vm_compute; lia]|].
  apply D; [reflexivity | vm_compute; lia].
Defined.

(** ** Days in a month *)

Lemma includes_In (l : list Z) (n : Z) : includes l (Some n) = true <-> In n l.
Proof.
  simpl. rewrite existsb_exists. split.
  - intros (x & Hx & E). apply Z.eqb_eq in E. now subst.
  - intros H. exists n. split; auto. apply Z.eqb_refl.
Qed.

Lemma includes_not_In (l : list Z) (n : Z) :
  includes l (Some n) = false <-> ~ In n l.
Proof.
  rewrite <- includes_In. destruct (includes l (Some n)); split; congruence.
Qed.

(** C3 as stated fails: with no month the lookup answers 31, not 29. *)
Lemma getNoOfDays_unset_is_31 :
  getNoOfDays (js "") = 31%Z /\ getNoOfDays (js "") <> 29%Z.
Proof. split; [reflexivity | discriminate]. Qed.

(** C3, amended: [getNoOfDays] answers 31 for the months 1, 3, 5, 7, 8, 10,
    12, 30 for the months 4, 6, 9, 11, and 29 for every other non-empty
    month text (February included); for the empty (unset) month it answers
    31. *)
Theorem getNoOfDays_table (month : jsstring) :
  (forall n, Number month = Some n -> In n [1; 3; 5; 7; 8; 10; 12]%Z ->
     getNoOfDays month = 31%Z) /\
  (forall n, Number month = Some n -> In n [4; 6; 9; 11]%Z ->
     getNoOfDays month = 30%Z) /\
  (month <> [] ->
   (forall n, Number month = Some n ->
      ~ In n [1; 3; 5; 7; 8; 10; 12]%Z /\ ~ In n [4; 6; 9; 11]%Z) ->
     getNoOfDays month = 29%Z) /\
  (month = [] -> getNoOfDays month = 31%Z).
Proof.
  unfold getNoOfDays.
  split; [|split; [|split]].
  - intros n Hn Hin. destruct (isEmpty month); auto.
    rewrite Hn. apply includes_In in Hin.
    unfold thirtyOneDaysMonths. now rewrite Hin.
  - intros n Hn Hin. destruct (isEmpty month) eqn:He.
    + apply isEmpty_true in He. subst month. simpl in Hn.
      injection Hn as <-. simpl in Hin. lia.
    + rewrite Hn.
      destruct (includes thirtyOneDaysMonths (Some n)) eqn:H31.
      * apply includes_In in H31. unfold thirtyOneDaysMonths in H31.
        simpl in Hin, H31. lia.
      * apply includes_In in Hin. unfold thirtyDaysMonths. now rewrite Hin.
  - intros Hne Hout. apply isEmpty_false in Hne. rewrite Hne.
    destruct (Number month) as [n|]; [|reflexivity].
    destruct (Hout n eq_refl) as [A B].
    apply includes_not_In in A. apply includes_not_In in B.
    unfold thirtyOneDaysMonths, thirtyDaysMonths. now rewrite A, B.
  - intros ->. reflexivity.
Qed.

Lemma getNoOfDays_table_witness :
  getNoOfDays (js "07") = 31%Z /\ getNoOfDays (js "11") = 30%Z /\
  getNoOfDays (js "2") = 29%Z /\ getNoOfDays (js "") = 31%Z.
Proof.
  split; [|split; [|split]].
  - apply (proj1 (getNoOfDays_table (js "07")) 7%Z); [reflexivity|].
    simpl; tauto.
  - apply (proj1 (proj2 (getNoOfDays_table (js "11"))) 11%Z); [reflexivity|].
    simpl; tauto.
  - apply (proj1 (proj2 (proj2 (getNoOfDays_table (js "2"))))).
    + discriminate.
    + intros n Hn. vm_compute in Hn. injection Hn as <-.
      split; simpl; intros H; repeat destruct H as [H|H]; try discriminate H; exact H.
  - apply (proj2 (proj2 (proj2 (getNoOfDays_table (js ""))))). reflexivity.
Defined.

(** ** The length bound *)

Lemma restrictInput_display_length (cfg : config) (s : state) (raw : jsstring) :
  length (snd (restrictInput cfg s raw)) <= 10.
Proof.
  unfold restrictInput.
  destruct (rearrangeBasedOnDateFormat _ _ _ _ _) as [s1 v1].
  destruct (if absent _ then _ else _) as [s2 v2].
  simpl. apply substring_length.
Qed.

(** C2: whatever the input and the stored fields, the text [restrictInput]
    hands back holds at most 10 characters. *)
Theorem restrictInput_length_le_10 (cfg : config) (s : state) (raw : jsstring) :
  length (snd (restrictInput cfg s raw)) <= 10.
Proof. apply restrictInput_display_length. Qed.

(** ** An input that starts with a separator *)

Lemma findSlashPosition_first_slash (rest : jsstring) :
  findSlashPosition (slash :: rest) 1 = 0.
Proof. reflexivity. Qed.

Lemma removeLeadingZero_nil : removeLeadingZero [] = [].
Proof. reflexivity. Qed.

Lemma validateYear_nil (cfg : config) (s : state) (d : nat) :
  snd (validateYear cfg s [] d) = [].
Proof.
  unfold validateYear.
  rewrite sliceFrom_nil, slice_nil.
  destruct (strictEq (day s) [zero] || strictEq (month s) [zero]); simpl; auto.
  now destruct (absent d).
Qed.

Lemma restrictInput_slash_first (cfg : config) (s : state) (raw : jsstring) :
  firstIs slash raw = true -> snd (restrictInput cfg s raw) = [].
Proof.
  intros H. destruct raw as [|c rest]; [discriminate|].
  simpl in H. apply Ascii.eqb_eq in H. subst c.
  unfold restrictInput.
  rewrite findSlashPosition_first_slash.
  assert (E : checkSlashPosition (slash :: rest) = []) by reflexivity.
  rewrite E.
  assert (R : exists s1, rearrangeBasedOnDateFormat cfg s (stripIllegal []) 0
                           (findSlashPosition (slash :: rest) 2) = (s1, [])).
  { unfold rearrangeBasedOnDateFormat. destruct (dateFormat cfg); simpl; eauto. }
  destruct R as (s1 & ->).
  destruct (absent (findSlashPosition (slash :: rest) 2)); simpl; auto.
  pose proof (validateYear_nil cfg s1 (findSlashPosition (slash :: rest) 2)) as Y.
  destruct (validateYear cfg s1 [] _) as [s2 v2]. simpl in *. now subst.
Qed.

(** C5: an input that starts with the separator yields the empty text, in
    either format and whatever the stored fields. *)
Theorem restrictInput_leading_slash (cfg : config) (s : state) (raw : jsstring) :
  firstIs slash raw = true -> snd (restrictInput cfg s raw) = [].
Proof. apply restrictInput_slash_first. Qed.

Lemma restrictInput_leading_slash_witness :
  snd (restrictInput defaultConfig initial (js "/1/2020")) = [].
Proof. apply restrictInput_leading_slash. reflexivity. Defined.

(** ** Finalisation *)

(** C7, [clearDateIfNotValid]: when the stored day or month is empty, or
    the stored year (the empty year counting as 0) lies outside
    [startYear .. endYear], the field is cleared and the committed [date]
    is left as it was; otherwise [date] becomes day/month/year, in that
    order whatever the display format, and the field is left alone.  After
    the 'mm/dd/yyyy' input 03/15/2024 this commits 15/03/2024. *)
Theorem clearDateIfNotValid_commit (cfg : config) (s : state) (display : jsstring) :
  (day s = [] \/ month s = [] \/
   (exists n, Number (year s) = Some n /\ (n < startYear cfg \/ endYear cfg < n)%Z) ->
     clearDateIfNotValid cfg s display = (s, [])) /\
  (day s <> [] -> month s <> [] ->
   (forall n, Number (year s) = Some n -> (startYear cfg <= n <= endYear cfg)%Z) ->
     clearDateIfNotValid cfg s display
     = (setDate s (day s ++ js "/" ++ month s ++ js "/" ++ year s), display)) /\
  Number (js "") = Some 0%Z /\
  (let typed := js "03/15/2024" in
   let r := restrictInput (mkConfig MDY 1000 9999) initial typed in
   snd r = typed /\
   date (fst (clearDateIfNotValid (mkConfig MDY 1000 9999) (fst r) (snd r)))
   = js "15/03/2024").
Proof.
  unfold clearDateIfNotValid.
  split; [|split; [|split]].
  - intros [H|[H|(n & Hn & Hr)]].
    + rewrite H. reflexivity.
    + rewrite H. simpl. now rewrite orb_true_r.
    + rewrite Hn. simpl.
      destruct Hr as [Hr|Hr]; apply Z.ltb_lt in Hr; rewrite Hr;
        now rewrite ?orb_true_r.
  - intros Hd Hm Hy.
    apply isEmpty_false in Hd, Hm. rewrite Hd, Hm. simpl.
    destruct (Number (year s)) as [n|]; simpl; [|reflexivity].
    destruct (Hy n eq_refl) as [A B].
    assert ((n <? startYear cfg)%Z = false) as -> by (apply Z.ltb_ge; lia).
    assert ((endYear cfg <? n)%Z = false) as -> by (apply Z.ltb_ge; lia).
    reflexivity.
  - reflexivity.
  - vm_compute. split; reflexivity.
Qed.

Lemma clearDateIfNotValid_commit_witness :
  clearDateIfNotValid defaultConfig (mkState (js "1") [] [] []) (js "1/") =
    (mkState (js "1") [] [] [], []) /\
  clearDateIfNotValid defaultConfig (mkState (js "15") (js "03") (js "2024") [])
    (js "03/15/2024") =
    (mkState (js "15") (js "03") (js "2024") (js "15/03/2024"), js "03/15/2024").
Proof.
  split.
  - apply (proj1 (clearDateIfNotValid_commit defaultConfig
                    (mkState (js "1") [] [] []) (js "1/"))).
    right; left; reflexivity.
  - apply (proj1 (proj2 (clearDateIfNotValid_commit defaultConfig
                    (mkState (js "15") (js "03") (js "2024") []) (js "03/15/2024")))).
    + discriminate.
    + discriminate.
    + intros n Hn. vm_compute in Hn. injection Hn as <-. simpl. lia.
Defined.

(** ** How a keystroke changes the stored fields *)

Section Steps.

Lemma fieldStep_refl (a : jsstring) : fieldStep a a.
Proof. now left. Qed.

Lemma fieldStep_trans (a b c : jsstring) :
  fieldStep a b -> fieldStep b c -> fieldStep a c.
Proof.
  unfold fieldStep. intros H [->|[->|(x & ->)]]; eauto.
Qed.

Lemma yearStep_trans (a b c : jsstring) :
  yearStep a b -> yearStep b c -> yearStep a c.
Proof.
  unfold yearStep. intros H [->|H']; auto.
Qed.

Lemma stateStep_refl (s : state) : stateStep s s.
Proof. repeat split; now left. Qed.

Lemma stateStep_trans (a b c : state) :
  stateStep a b -> stateStep b c -> stateStep a c.
Proof.
  intros (D1 & M1 & Y1 & E1) (D2 & M2 & Y2 & E2).
  repeat split; eauto using fieldStep_trans, yearStep_trans; congruence.
Qed.

Lemma stateStep_setMonth (s : state) (c : jsstring) :
  stateStep s (setMonth s (removeLeadingZero c)).
Proof. repeat split; simpl; try now left. right; right; eauto. Qed.

Lemma stateStep_setDay (s : state) (c : jsstring) :
  stateStep s (setDay s (removeLeadingZero c)).
Proof. repeat split; simpl; try now left. right; right; eauto. Qed.

#[local] Hint Resolve stateStep_refl stateStep_setMonth stateStep_setDay : steps.

Lemma validateMonthIfBeforeDay_step (s : state) (v : jsstring) (d : nat) :
  stateStep s (fst (validateMonthIfBeforeDay s v d)).
Proof. unfold validateMonthIfBeforeDay. split_ifs; simpl; auto with steps. Qed.

Lemma validateDayIfBeforeMonth_step (s : state) (v : jsstring) (d : nat) :
  stateStep s (fst (validateDayIfBeforeMonth s v d)).
Proof. unfold validateDayIfBeforeMonth. split_ifs; simpl; auto with steps. Qed.

Lemma validateMonthIfAfterDay_step (s : state) (v : jsstring) (d1 d2 : nat) :
  stateStep s (fst (validateMonthIfAfterDay s v d1 d2)).
Proof. unfold validateMonthIfAfterDay. split_ifs; simpl; auto with steps. Qed.

Lemma validateDayIfAfterMonth_step (s : state) (v : jsstring) (d1 d2 : nat) :
  stateStep s (fst (validateDayIfAfterMonth s v d1 d2)).
Proof. unfold validateDayIfAfterMonth. split_ifs; simpl; auto with steps. Qed.

Lemma rearrangeBasedOnDateFormat_step (cfg : config) (s : state) (v : jsstring)
    (d1 d2 : nat) :
  stateStep s (fst (rearrangeBasedOnDateFormat cfg s v d1 d2)).
Proof.
  unfold rearrangeBasedOnDateFormat.
  destruct (dateFormat cfg).
  - pose proof (validateMonthIfBeforeDay_step s v d1) as H1.
    destruct (validateMonthIfBeforeDay s v d1) as [s1 v1]. simpl in H1.
    destruct (absent d1); auto.
    eapply stateStep_trans; [exact H1 | apply validateDayIfAfterMonth_step].
  - pose proof (validateDayIfBeforeMonth_step s v d1) as H1.
    destruct (validateDayIfBeforeMonth s v d1) as [s1 v1]. simpl in H1.
    destruct (absent d1); auto.
    eapply stateStep_trans; [exact H1 | apply validateMonthIfAfterDay_step].
Qed.

Lemma validateYear_step (cfg : config) (s : state) (v : jsstring) (d : nat) :
  stateStep s (fst (validateYear cfg s v d)).
Proof.
  unfold validateYear.
  destruct (strictEq (day s) [zero] || strictEq (month s) [zero]);
    [apply stateStep_refl|].
  destruct (isEmpty _) eqn:He.
  - apply isEmpty_true in He. rewrite He.
    repeat split; simpl; try now left. now right.
  - destruct (firstIs zero _ || _) eqn:Hz; [apply stateStep_refl|].
    match goal with
    | |- context [if ?c then (s, substring _ _ _) else _] => destruct c
    end; [apply stateStep_refl|].
    apply orb_false_elim in Hz. destruct Hz as [Hz _].
    repeat split; simpl; try now left. now right.
Qed.

Lemma clearSpecificPartOfDateIfEmpty_step (cfg : config) (s : state) (d1 d2 : nat) :
  stateStep s (clearSpecificPartOfDateIfEmpty cfg s d1 d2).
Proof.
  unfold clearSpecificPartOfDateIfEmpty, stateStep, fieldStep, yearStep.
  destruct (dateFormat cfg), (absent d1), (absent d2); simpl; auto 6.
Qed.

Lemma restrictInput_step (cfg : config) (s : state) (raw : jsstring) :
  stateStep s (fst (restrictInput cfg s raw)).
Proof.
  unfold restrictInput.
  pose proof (rearrangeBasedOnDateFormat_step cfg s
                (stripIllegal (checkSlashPosition raw))
                (findSlashPosition raw 1) (findSlashPosition raw 2)) as H1.
  destruct (rearrangeBasedOnDateFormat _ _ _ _ _) as [s1 v1]. simpl in H1.
  assert (H2 : stateStep s1
            (fst (if absent (findSlashPosition raw 2) then (s1, v1)
                  else validateYear cfg s1 v1 (findSlashPosition raw 2)))).
  { destruct (absent _); [apply stateStep_refl | apply validateYear_step]. }
  destruct (if absent _ then _ else _) as [s2 v2]. simpl in *.
  eapply stateStep_trans; [exact H1|].
  eapply stateStep_trans; [exact H2|].
  apply clearSpecificPartOfDateIfEmpty_step.
Qed.

End Steps.

(** ** Leading zeros *)

Lemma doubleZero_no_zero (s : jsstring) :
  firstIs zero s = false -> doubleZero s = false.
Proof.
  destruct s as [|a [|b s]]; simpl; auto.
  unfold is_zero. now intros ->.
Qed.

Lemma doubleZero_zero_cons (s : jsstring) :
  firstIs zero s = false -> doubleZero (zero :: s) = false.
Proof. destruct s as [|b s]; simpl; auto. Qed.

Lemma removeLeadingZero_big (input : jsstring) :
  gtNum (Number input) 9 = true -> removeLeadingZero input = dropZeros input.
Proof.
  unfold removeLeadingZero, replaceLeadingZeros, testLeadingZeros. intros ->.
  destruct (firstIs zero input) eqn:E; auto.
  symmetry. now apply dropZeros_id.
Qed.

Lemma removeLeadingZero_small (input : jsstring) :
  gtNum (Number input) 9 = false ->
  removeLeadingZero input
  = if firstIs zero input then zero :: dropZeros input else input.
Proof.
  unfold removeLeadingZero, replaceLeadingZeros, testLeadingZeros. now intros ->.
Qed.

Lemma removeLeadingZero_no_doubleZero (input : jsstring) :
  doubleZero (removeLeadingZero input) = false.
Proof.
  destruct (gtNum (Number input) 9) eqn:E.
  - rewrite removeLeadingZero_big by auto.
    apply doubleZero_no_zero, dropZeros_no_zero.
  - rewrite removeLeadingZero_small by auto.
    destruct (firstIs zero input) eqn:F.
    + apply doubleZero_zero_cons, dropZeros_no_zero.
    + now apply doubleZero_no_zero.
Qed.

Lemma fieldStep_no_doubleZero (old new : jsstring) :
  fieldStep old new -> doubleZero old = false -> doubleZero new = false.
Proof.
  intros [->|[->|(c & ->)]] H; auto.
  apply removeLeadingZero_no_doubleZero.
Qed.

(** C4 as stated fails: "03" is kept as "03", and after the input "05/"
    the stored month is "05", a value with a leading zero. *)
Lemma removeLeadingZero_keeps_one_zero :
  removeLeadingZero (js "03") = js "03" /\
  removeLeadingZero (js "03") <> js "0" /\
  month (fst (restrictInput defaultConfig initial (js "05/"))) = js "05".
Proof. split; [reflexivity | split; [discriminate | reflexivity]]. Qed.

(** C4, amended: [removeLeadingZero] strips every leading zero when the
    numeric value exceeds 9; otherwise it collapses the run of leading
    zeros to a single "0" and keeps the rest ("0" stays "0", "03" stays
    "03", "003" becomes "03").  Its result never begins with two zeros, so
    stored day and month fields that do not begin with two zeros keep that
    property across every [restrictInput] call. *)
Theorem removeLeadingZero_collapses (input : jsstring) :
  (gtNum (Number input) 9 = true -> removeLeadingZero input = dropZeros input) /\
  (gtNum (Number input) 9 = false ->
     removeLeadingZero input
     = if firstIs zero input then zero :: dropZeros input else input) /\
  firstIs zero (dropZeros input) = false /\
  doubleZero (removeLeadingZero input) = false /\
  (forall cfg s,
     doubleZero (day s) = false -> doubleZero (month s) = false ->
     doubleZero (day (fst (restrictInput cfg s input))) = false /\
     doubleZero (month (fst (restrictInput cfg s input))) = false).
Proof.
  split; [apply removeLeadingZero_big|].
  split; [apply removeLeadingZero_small|].
  split; [apply dropZeros_no_zero|].
  split; [apply removeLeadingZero_no_doubleZero|].
  intros cfg s Hd Hm.
  destruct (restrictInput_step cfg s input) as (D & M & _).
  split; eapply fieldStep_no_doubleZero; eauto.
Qed.

Lemma removeLeadingZero_collapses_witness :
  removeLeadingZero (js "0012") = js "12" /\
  removeLeadingZero (js "003") = js "03" /\
  doubleZero (day (fst (restrictInput defaultConfig initial (js "005/007")))) = false /\
  doubleZero (month (fst (restrictInput defaultConfig initial (js "005/007")))) = false.
Proof.
  split; [|split].
  - apply (proj1 (removeLeadingZero_collapses (js "0012"))). reflexivity.
  - apply (proj1 (proj2 (removeLeadingZero_collapses (js "003")))). reflexivity.
  - apply (proj2 (proj2 (proj2 (proj2 (removeLeadingZero_collapses (js "005/007")))))
             defaultConfig initial); reflexivity.
Defined.

(** ** Year validation *)

Section Year.

Lemma digit_val_range (c : ascii) :
  is_digit c = true -> (0 <= digit_val c <= 9)%Z.
Proof.
  unfold is_digit, digit_val. intros H.
  apply andb_true_iff in H. destruct H as [A B].
  apply Nat.leb_le in A, B. lia.
Qed.

Lemma digitsValue_bounds (s : jsstring) :
  forall acc n, (0 <= acc)%Z -> digitsValue acc s = Some n ->
    (acc * 10 ^ Z.of_nat (length s) <= n < (acc + 1) * 10 ^ Z.of_nat (length s))%Z.
Proof.
  induction s as [|c s IH]; intros acc n Hacc H.
  - simpl in *. injection H as <-. lia.
  - cbn [digitsValue] in H. destruct (is_digit c) eqn:Hc; [|discriminate].
    apply digit_val_range in Hc.
    apply IH in H; [|lia].
    cbn [length]. rewrite Nat2Z.inj_succ, Z.pow_succ_r by lia.
    set (p := (10 ^ Z.of_nat (length s))%Z) in *.
    assert (0 < p)%Z by (apply Z.pow_pos_nonneg; lia).
    nia.
Qed.

Lemma Number_bounds (s : jsstring) (n : Z) :
  Number s = Some n -> (0 <= n < 10 ^ Z.of_nat (length s))%Z.
Proof.
  intros H. apply digitsValue_bounds in H; lia.
Qed.

Lemma checkIsLeapYear_leap (y : jsstring) (n : Z) :
  Number y = Some n -> (checkIsLeapYear y = true <-> leap n).
Proof.
  unfold checkIsLeapYear, leap. intros ->.
  rewrite orb_true_iff, andb_true_iff, negb_true_iff.
  rewrite !Z.eqb_eq, Z.eqb_neq. tauto.
Qed.

Lemma checkIsLeapYear_not_leap (y : jsstring) (n : Z) :
  Number y = Some n -> (checkIsLeapYear y = false <-> ~ leap n).
Proof.
  intros H. rewrite <- (checkIsLeapYear_leap y n H).
  destruct (checkIsLeapYear y); split; congruence.
Qed.

Lemma no_sentinel (s : state) :
  day s <> [zero] -> month s <> [zero] ->
  strictEq (day s) [zero] || strictEq (month s) [zero] = false.
Proof.
  intros D M. apply strictEq_false in D, M. now rewrite D, M.
Qed.

(** A year that fails the format or the range test: the text up to and
    including the second separator is kept and the stored year is put
    back. *)
Lemma validateYear_out_of_range (cfg : config) (s : state) (value : jsstring)
    (d : nat) (n : Z) :
  d <> 0 -> day s <> [zero] -> month s <> [zero] ->
  4 <= length (sliceFrom value (d + 1)) ->
  Number (sliceFrom value (d + 1)) = Some n ->
  (n < startYear cfg \/ endYear cfg < n)%Z ->
  validateYear cfg s value d = (s, firstn (d + 1) value ++ year s).
Proof.
  intros Hd D M Hlen Hn Hr.
  unfold validateYear.
  apply absent_false in Hd. rewrite Hd, no_sentinel by auto.
  destruct (sliceFrom value (d + 1)) as [|c y] eqn:E; [simpl in Hlen; lia|].
  cbn [isEmpty]. rewrite Hn. apply Nat.leb_le in Hlen. rewrite Hlen.
  rewrite substring_0.
  assert ((true && ltNum (Some n) (startYear cfg)
           || gtNum (Some n) (endYear cfg)) = true) as ->.
  { simpl. destruct Hr as [Hr|Hr]; apply Z.ltb_lt in Hr; rewrite Hr;
      now rewrite ?orb_true_r. }
  now rewrite orb_true_r.
Qed.

(** A partial year is stored as typed. *)
Lemma validateYear_partial (cfg : config) (s : state) (value : jsstring) (d : nat) :
  (1000 <= endYear cfg)%Z ->
  d <> 0 -> day s <> [zero] -> month s <> [zero] ->
  sliceFrom value (d + 1) <> [] ->
  length (sliceFrom value (d + 1)) < 4 ->
  firstIs zero (sliceFrom value (d + 1)) = false ->
  validateYear cfg s value d = (setYear s (sliceFrom value (d + 1)), value).
Proof.
  intros He Hd D M Hne Hlen Hz.
  unfold validateYear.
  apply absent_false in Hd. rewrite Hd, no_sentinel by auto.
  apply isEmpty_false in Hne. rewrite Hne, Hz.
  assert ((4 <=? length (sliceFrom value (d + 1))) = false) as ->
      by (apply Nat.leb_gt; lia).
  assert (Nat.eqb (length (sliceFrom value (d + 1))) 4 = false) as ->
      by (apply Nat.eqb_neq; lia).
  assert (gtNum (Number (sliceFrom value (d + 1))) (endYear cfg) = false) as ->.
  { destruct (Number _) as [n|] eqn:Hn; [|reflexivity].
    apply Number_bounds in Hn. simpl. apply Z.ltb_ge.
    assert (10 ^ Z.of_nat (length (sliceFrom value (d + 1))) <= 10 ^ 3)%Z
      by (apply Z.pow_le_mono_r; lia).
    lia. }
  simpl. now rewrite !andb_false_r.
Qed.

(** February 29 with a four-digit year that passed the format and range
    tests: the leap-year rule decides. *)
Lemma validateYear_feb29 (cfg : config) (s : state) (value : jsstring)
    (d : nat) (n : Z) :
  d <> 0 -> isFebruary (month s) = true -> day s = js "29" ->
  length (sliceFrom value (d + 1)) = 4 ->
  firstIs zero (sliceFrom value (d + 1)) = false ->
  Number (sliceFrom value (d + 1)) = Some n ->
  (startYear cfg <= n <= endYear cfg)%Z ->
  (leap n ->
     validateYear cfg s value d = (setYear s (sliceFrom value (d + 1)), value)) /\
  (~ leap n -> validateYear cfg s value d = (s, removelast value)).
Proof.
  intros Hd Hf Hday Hlen Hz Hn Hr.
  assert (M : month s <> [zero]).
  { intros E. rewrite E in Hf. discriminate. }
  assert (D : day s <> [zero]) by (rewrite Hday; discriminate).
  assert (Common : validateYear cfg s value d =
            if negb (checkIsLeapYear (sliceFrom value (d + 1)))
            then (s, removelast value)
            else (setYear s (sliceFrom value (d + 1)), value)).
  { unfold validateYear.
    apply absent_false in Hd. rewrite Hd, no_sentinel by auto.
    destruct (sliceFrom value (d + 1)) as [|c y] eqn:E; [discriminate|].
    cbn [isEmpty]. rewrite Hz, Hn, Hf, Hday, Hlen, strictEq_refl.
    assert (ltNum (Some n) (startYear cfg) = false) as ->
        by (apply Z.ltb_ge; lia).
    assert (gtNum (Some n) (endYear cfg) = false) as ->
        by (apply Z.ltb_ge; lia).
    rewrite !substring_0, removelast_firstn_len.
    replace (length value - 1) with (Nat.pred (length value)) by lia.
    reflexivity. }
  split; intros L.
  - apply (checkIsLeapYear_leap _ _ Hn) in L. now rewrite Common, L.
  - apply (checkIsLeapYear_not_leap _ _ Hn) in L. now rewrite Common, L.
Qed.

End Year.

(** C6 as stated fails: with the day rejected (stored as the sentinel "0")
    the partial year "202", shorter than four characters and without a
    leading zero, is not accepted; the text is cut before the second
    separator and no year is stored. *)
Lemma validateYear_sentinel_drops_year :
  let s := mkState (js "0") (js "1") (js "") (js "") in
  (1000 <= startYear defaultConfig <= endYear defaultConfig)%Z /\
  (endYear defaultConfig <= 9999)%Z /\
  sliceFrom (js "1/0/202") (3 + 1) = js "202" /\
  validateYear defaultConfig s (js "1/0/202") 3 = (s, js "1/0") /\
  validateYear defaultConfig s (js "1/0/202") 3
    <> (setYear s (js "202"), js "1/0/202") /\
  restrictInput defaultConfig initial (js "1/0/202") = (s, js "1/0").
Proof.
  cbv zeta. repeat split; try reflexivity; try discriminate;
    vm_compute; discriminate.
Qed.

(** C6, amended: under 1000 <= startYear <= endYear <= 9999, and provided
    neither the stored day nor the stored month is the sentinel "0", a
    candidate year of at least four characters whose value lies outside
    [startYear .. endYear] is rejected: the result is the text up to and
    including the second separator followed by the previously stored year,
    and the stored fields are untouched.  A non-empty candidate of fewer
    than four characters that does not begin with '0' is stored and the
    text is returned unchanged, without any range test. *)
Theorem validateYear_range_enforcement (cfg : config) (s : state)
    (value : jsstring) (d : nat) :
  (1000 <= startYear cfg <= endYear cfg)%Z -> (endYear cfg <= 9999)%Z ->
  d <> 0 -> day s <> [zero] -> month s <> [zero] ->
  let candidate := sliceFrom value (d + 1) in
  (forall n, 4 <= length candidate -> Number candidate = Some n ->
     (n < startYear cfg \/ endYear cfg < n)%Z ->
     validateYear cfg s value d = (s, firstn (d + 1) value ++ year s)) /\
  (candidate <> [] -> length candidate < 4 -> firstIs zero candidate = false ->
     validateYear cfg s value d = (setYear s candidate, value)).
Proof.
  intros Hcfg Hmax Hd D M candidate. split.
  - intros n Hlen Hn Hr. now apply validateYear_out_of_range with (n := n).
  - intros Hne Hlen Hz. apply validateYear_partial; auto. lia.
Qed.

Lemma validateYear_range_enforcement_witness :
  let cfg := mkConfig MDY 2000 2030 in
  let s := mkState (js "01") (js "01") (js "") (js "") in
  validateYear cfg s (js "01/01/1999") 5 = (s, js "01/01/") /\
  validateYear cfg s (js "01/01/199") 5 = (setYear s (js "199"), js "01/01/199") /\
  snd (restrictInput cfg initial (js "01/01/1999")) = js "01/01/".
Proof.
  cbv zeta. split; [|split; [|reflexivity]].
  - apply (proj1 (validateYear_range_enforcement (mkConfig MDY 2000 2030)
             (mkState (js "01") (js "01") (js "") (js "")) (js "01/01/1999") 5
             ltac:(simpl; lia) ltac:(simpl; lia) ltac:(lia)
             ltac:(discriminate) ltac:(discriminate)) 1999%Z).
    + simpl. lia.
    + reflexivity.
    + simpl. lia.
  - apply (proj2 (validateYear_range_enforcement (mkConfig MDY 2000 2030)
             (mkState (js "01") (js "01") (js "") (js "")) (js "01/01/199") 5
             ltac:(simpl; lia) ltac:(simpl; lia) ltac:(lia)
             ltac:(discriminate) ltac:(discriminate))).
    + discriminate.
    + simpl. lia.
    + reflexivity.
Defined.

(** ** February 29 *)

Lemma digitsValue_digits (s : jsstring) :
  forall acc n, digitsValue acc s = Some n -> forallb is_digit s = true.
Proof.
  induction s as [|c s IH]; intros acc n H; simpl in *; auto.
  destruct (is_digit c); [|discriminate]. simpl. eauto.
Qed.

Lemma digit_not_slash (c : ascii) : is_digit c = true -> is_slash c = false.
Proof.
  intros H. unfold is_slash. apply Ascii.eqb_neq. intros ->. discriminate.
Qed.

Lemma digits_countSlashes (s : jsstring) :
  forallb is_digit s = true -> countSlashes s = 0.
Proof.
  induction s as [|c s IH]; intros H; auto.
  simpl in H. apply andb_true_iff in H. destruct H as [Hc Hs].
  rewrite countSlashes_cons, (digit_not_slash c Hc), IH; auto.
Qed.

Lemma digits_stripIllegal (s : jsstring) :
  forallb is_digit s = true -> stripIllegal s = s.
Proof.
  induction s as [|c s IH]; intros H; auto.
  simpl in H. apply andb_true_iff in H. destruct H as [Hc Hs].
  unfold stripIllegal in *. simpl. rewrite Hc. simpl. now rewrite IH.
Qed.

(** C1 as stated fails: a four-digit year that does not satisfy the
    leap-year test is not always answered by dropping the last character.
    A year with a leading zero, or one outside the configured range, is
    rejected earlier and the whole year is replaced by the stored one. *)
Lemma restrictInput_feb29_rejected_before_leap_test :
  ~ leap 1 /\ ~ leap 1999 /\
  restrictInput defaultConfig initial (js "02/29/0001")
    = (mkState (js "29") (js "02") (js "") (js ""), js "02/29/") /\
  removelast (js "02/29/0001") = js "02/29/000" /\
  restrictInput (mkConfig MDY 2000 2030) initial (js "02/29/1999")
    = (mkState (js "29") (js "02") (js "") (js ""), js "02/29/") /\
  removelast (js "02/29/1999") = js "02/29/199".
Proof.
  unfold leap. repeat split; try reflexivity; vm_compute; intuition discriminate.
Qed.

Lemma restrictInput_feb29_rearranged (cfg : config) (s : state) (m y : jsstring) :
  dateFormat cfg = MDY -> m = js "2" \/ m = js "02" ->
  forallb is_digit y = true ->
  let raw := m ++ js "/29/" ++ y in
  findSlashPosition raw 1 = length m /\
  findSlashPosition raw 2 = length m + 3 /\
  sliceFrom raw (length m + 3 + 1) = y /\
  rearrangeBasedOnDateFormat cfg s (stripIllegal (checkSlashPosition raw))
    (length m) (length m + 3)
  = (mkState (js "29") m (year s) (date s), raw).
Proof.
  intros Hfmt Hm Hy raw.
  assert (Hc : countSlashes raw = 2).
  { unfold raw. rewrite !countSlashes_app, (digits_countSlashes y Hy).
    destruct Hm as [->| ->]; reflexivity. }
  assert (Hk : checkSlashPosition raw = raw).
  { unfold checkSlashPosition. rewrite Hc.
    destruct Hm as [->| ->]; reflexivity. }
  assert (Hs : stripIllegal raw = raw).
  { unfold raw, stripIllegal. rewrite !filter_app.
    fold (stripIllegal y). rewrite (digits_stripIllegal y Hy).
    destruct Hm as [->| ->]; reflexivity. }
  rewrite Hk, Hs.
  unfold rearrangeBasedOnDateFormat. rewrite Hfmt.
  destruct Hm as [->| ->]; repeat split; reflexivity.
Qed.

(** C1, amended: in an 'mm/dd/yyyy' session, for an input made of the
    month "2" or "02", the day "29" and a four-digit year that does not
    begin with '0' and lies within [startYear .. endYear], [restrictInput]
    keeps (and stores) the year exactly when it satisfies the leap-year
    test; otherwise it returns the input without its last character and
    leaves the stored year as it was.  The same holds of [validateYear] for
    any text whose part after the second separator is such a year, once
    the stored day is "29" and the stored month "2" or "02".  With the
    default range, 02/29/2019 loses its last digit and 02/29/2020 is
    accepted in full. *)
Theorem restrictInput_feb29_leap (cfg : config) (s : state) (m y : jsstring) (n : Z) :
  dateFormat cfg = MDY -> m = js "2" \/ m = js "02" ->
  length y = 4 -> firstIs zero y = false -> Number y = Some n ->
  (startYear cfg <= n <= endYear cfg)%Z ->
  let raw := m ++ js "/29/" ++ y in
  (leap n ->
     restrictInput cfg s raw = (mkState (js "29") m y (date s), raw)) /\
  (~ leap n ->
     restrictInput cfg s raw
     = (mkState (js "29") m (year s) (date s), removelast raw)) /\
  (forall st value d,
     d <> 0 -> isFebruary (month st) = true -> day st = js "29" ->
     sliceFrom value (d + 1) = y ->
     (leap n -> validateYear cfg st value d = (setYear st y, value)) /\
     (~ leap n -> validateYear cfg st value d = (st, removelast value))) /\
  snd (restrictInput defaultConfig initial (js "02/29/2019")) = js "02/29/201" /\
  snd (restrictInput defaultConfig initial (js "02/29/2020")) = js "02/29/2020".
Proof.
  intros Hfmt Hm Hlen Hz Hn Hr raw.
  assert (Hy : forallb is_digit y = true) by (eapply digitsValue_digits; exact Hn).
  destruct (restrictInput_feb29_rearranged cfg s m y Hfmt Hm Hy)
    as (D1 & D2 & Hyear & Hre).
  fold raw in D1, D2, Hyear, Hre.
  assert (Hlm : 1 <= length m <= 2) by (destruct Hm as [->| ->]; simpl; lia).
  assert (Hraw : length raw = length m + 8).
  { unfold raw. rewrite !length_app, Hlen. simpl. lia. }
  assert (Hfeb : isFebruary m = true) by (destruct Hm as [->| ->]; reflexivity).
  set (s1 := mkState (js "29") m (year s) (date s)) in *.
  destruct (validateYear_feb29 cfg s1 raw (length m + 3) n) as [Yes No];
    try rewrite Hyear; auto; try lia.
  assert (Cl : forall st, clearSpecificPartOfDateIfEmpty cfg st (length m)
                            (length m + 3) = st).
  { intros [a b c e]. unfold clearSpecificPartOfDateIfEmpty. rewrite Hfmt.
    assert (absent (length m) = false) as -> by (apply absent_false; lia).
    assert (absent (length m + 3) = false) as -> by (apply absent_false; lia).
    reflexivity. }
  assert (Shape : restrictInput cfg s raw =
            let (s2, v2) := validateYear cfg s1 raw (length m + 3) in
            (s2, substring v2 0 10)).
  { unfold restrictInput. rewrite D1, D2, Hre.
    assert (absent (length m + 3) = false) as -> by (apply absent_false; lia).
    destruct (validateYear cfg s1 raw (length m + 3)) as [s2 v2].
    now rewrite Cl. }
  split; [|split; [|split; [|split; reflexivity]]].
  - intros L. rewrite Shape, (Yes L), Hyear, substring_0.
    rewrite firstn_all2 by lia. reflexivity.
  - intros L. rewrite Shape, (No L), substring_0.
    rewrite firstn_all2; [reflexivity|].
    rewrite removelast_firstn_len, length_firstn. lia.
  - intros st value d Hd Hf Hday Hcand.
    rewrite <- Hcand.
    apply validateYear_feb29 with (n := n); rewrite ?Hcand; auto.
Qed.

Lemma restrictInput_feb29_leap_witness :
  restrictInput defaultConfig initial (js "2/29/2024")
    = (mkState (js "29") (js "2") (js "2024") (js ""), js "2/29/2024") /\
  restrictInput defaultConfig initial (js "02/29/1900")
    = (mkState (js "29") (js "02") (js "") (js ""), js "02/29/190").
Proof.
  split.
  - apply (proj1 (restrictInput_feb29_leap defaultConfig initial (js "2") (js "2024")
             2024%Z eq_refl (or_introl eq_refl) eq_refl eq_refl eq_refl
             ltac:(simpl; lia))).
    left. split; [reflexivity | discriminate].
  - apply (proj1 (proj2 (restrictInput_feb29_leap defaultConfig initial (js "02")
             (js "1900") 1900%Z eq_refl (or_intror eq_refl) eq_refl eq_refl eq_refl
             ltac:(simpl; lia)))).
    unfold leap. intros [[_ H]|H]; [apply H; reflexivity | discriminate H].
Defined.

(** ** Processing the same text again *)

Section Repeat.

Lemma restrictInput_processWith (cfg : config) (s : state) (raw : jsstring) :
  restrictInput cfg s raw
  = processWith cfg s (stripIllegal (checkSlashPosition raw))
      (findSlashPosition raw 1) (findSlashPosition raw 2).
Proof. reflexivity. Qed.

(** With the same sanitised text and the same separator positions, a second
    pass takes the decisions of the first and ends in the same state. *)
Lemma processWith_repeat (cfg : config) (s : state) (v : jsstring) (d1 d2 : nat) :
  d1 <> 0 \/ d2 = 0 ->
  processWith cfg (fst (processWith cfg s v d1 d2)) v d1 d2
  = processWith cfg s v d1 d2.
Proof.
  intros H.
  destruct cfg as [f a b], s as [sd sm sy sdt].
  unfold_process. norm.
  destruct f; destruct (absent d1) eqn:A1; destruct (absent d2) eqn:A2;
    try (apply absent_true in A1; apply absent_false in A2; lia);
    norm.
  all: repeat (split_if; norm).
  all: try reflexivity.
  all: congruence.
Qed.

(** A text that does not start with a separator and whose first separator
    is reported at position 0 holds no separator at all. *)
Lemma no_first_slash_no_second (raw : jsstring) :
  firstIs slash raw = false -> findSlashPosition raw 1 = 0 ->
  findSlashPosition raw 2 = 0.
Proof.
  intros Hf H1. unfold findSlashPosition in *.
  destruct (countSlashes raw) eqn:Hc.
  - apply findSlashFrom_missing. lia.
  - destruct (findSlashFrom_found raw 0 0 1) as (pre & post & E & F & _); try lia.
    pose proof (firstIs_slash_count raw Hf pre post E). simpl in F. lia.
Qed.

Lemma restrictInput_repeat (cfg : config) (s : state) (raw : jsstring) :
  firstIs slash raw = false ->
  restrictInput cfg (fst (restrictInput cfg s raw)) raw = restrictInput cfg s raw.
Proof.
  intros Hf. rewrite !restrictInput_processWith.
  apply processWith_repeat.
  destruct (findSlashPosition raw 1) eqn:E; [right | left; lia].
  now apply no_first_slash_no_second.
Qed.

End Repeat.

(** C8 as stated fails: the text returned for 00/1 is "0/", and processing
    "0/" returns "0"; the text returned for 002/29/2019 is corrected once
    more when it is processed again. *)
Lemma restrictInput_not_idempotent :
  let r1 := restrictInput defaultConfig initial (js "00/1") in
  let r2 := restrictInput defaultConfig (fst r1) (snd r1) in
  let q1 := restrictInput defaultConfig initial (js "002/29/2019") in
  let q2 := restrictInput defaultConfig (fst q1) (snd q1) in
  snd r1 = js "0/" /\ snd r2 = js "0" /\ snd r2 <> snd r1 /\
  snd q1 = js "02/9//2" /\ snd q2 = js "02/9/" /\ snd q2 <> snd q1.
Proof.
  cbv zeta. repeat split; try reflexivity; vm_compute; discriminate.
Qed.

(** C8, amended: processing the same text twice in a row never changes the
    displayed text; and once the display is stable, that is once
    [restrictInput] returns its input unchanged, feeding the display back
    returns the same display and leaves every stored field as it is. *)
Theorem restrictInput_idempotent_when_stable (cfg : config) (s : state)
    (raw : jsstring) :
  snd (restrictInput cfg (fst (restrictInput cfg s raw)) raw)
  = snd (restrictInput cfg s raw) /\
  (snd (restrictInput cfg s raw) = raw ->
   restrictInput cfg (fst (restrictInput cfg s raw)) (snd (restrictInput cfg s raw))
   = restrictInput cfg s raw).
Proof.
  destruct (firstIs slash raw) eqn:Hf.
  - split.
    + now rewrite !restrictInput_slash_first.
    + intros H. rewrite restrictInput_slash_first in H by auto.
      subst raw. discriminate.
  - split.
    + now rewrite restrictInput_repeat.
    + intros ->. now apply restrictInput_repeat.
Qed.

Lemma restrictInput_idempotent_when_stable_witness :
  let r := restrictInput defaultConfig initial (js "02/29/201") in
  snd r = js "02/29/201" /\ restrictInput defaultConfig (fst r) (snd r) = r.
Proof.
  cbv zeta. split; [reflexivity|].
  apply (proj2 (restrictInput_idempotent_when_stable defaultConfig initial
                  (js "02/29/201"))).
  reflexivity.
Defined.

(** ** Totality and local recovery *)

Section Recovery.



End Recovery.

Section Stages.









End Stages.





(** ** The alphabet of the stored fields

    [Number] is only ever applied to the sanitised text, to parts of it and
    to stored fields.  Starting from legal fields (the initial ones are
    empty), every text the directive builds stays within digits and
    separators, the alphabet on which [Number] is modelled. *)

Section Alphabet.

Lemma Legal_nil : Legal [].
Proof. constructor. Qed.

Lemma Legal_app (a b : jsstring) : Legal a -> Legal b -> Legal (a ++ b).
Proof. intros. now apply Forall_app. Qed.

Lemma Legal_firstn (n : nat) (a : jsstring) : Legal a -> Legal (firstn n a).
Proof.
  unfold Legal. intros H. revert n.
  induction H; intros [|n]; simpl; constructor; auto.
Qed.

Lemma Legal_skipn (n : nat) (a : jsstring) : Legal a -> Legal (skipn n a).
Proof.
  unfold Legal. intros H. revert n.
  induction H; intros [|n]; simpl; auto.
Qed.

Lemma Legal_slice (a : jsstring) (i j : nat) : Legal a -> Legal (slice a i j).
Proof. intros. now apply Legal_firstn, Legal_skipn. Qed.

Lemma Legal_sliceFrom (a : jsstring) (i : nat) : Legal a -> Legal (sliceFrom a i).
Proof. apply Legal_skipn. Qed.

Lemma Legal_substring (a : jsstring) (i j : nat) :
  Legal a -> Legal (substring a i j).
Proof. intros. now apply Legal_firstn, Legal_skipn. Qed.

Lemma Legal_stripIllegal (a : jsstring) : Legal (stripIllegal a).
Proof.
  apply Forall_forall. intros c H. apply filter_In in H. exact (proj2 H).
Qed.

Lemma Legal_dropZeros (a : jsstring) : Legal a -> Legal (dropZeros a).
Proof.
  induction 1 as [|c a Hc Ha IH]; simpl; [constructor|].
  destruct (is_zero c); auto. now constructor.
Qed.

Lemma Legal_removeLeadingZero (a : jsstring) :
  Legal a -> Legal (removeLeadingZero a).
Proof.
  intros H. unfold removeLeadingZero, replaceLeadingZeros.
  split_ifs; auto; apply Legal_app; auto using Legal_dropZeros, Legal_nil.
  all: repeat constructor.
Qed.

#[local] Hint Resolve Legal_nil Legal_app Legal_slice Legal_sliceFrom
  Legal_substring Legal_stripIllegal Legal_removeLeadingZero : legal.

Lemma processWith_legal (cfg : config) (s : state) (v : jsstring) (d1 d2 : nat) :
  LegalState s -> Legal v ->
  LegalState (fst (processWith cfg s v d1 d2)) /\
  Legal (snd (processWith cfg s v d1 d2)).
Proof.
  destruct cfg as [f a b], s as [sd sm sy sdt].
  intros (Hd & Hm & Hy) Hv. unfold LegalState in *. norm.
  unfold_process. norm.
  destruct f; destruct (absent d1) eqn:A1; destruct (absent d2) eqn:A2; norm.
  all: repeat (split_if; norm).
  all: repeat split;
    repeat first [ assumption | apply Legal_nil | apply Legal_app
                 | apply Legal_substring | apply Legal_slice
                 | apply Legal_sliceFrom | apply Legal_removeLeadingZero ].
Qed.

Lemma restrictInput_legal (cfg : config) (s : state) (raw : jsstring) :
  LegalState s ->
  LegalState (fst (restrictInput cfg s raw)) /\
  Legal (snd (restrictInput cfg s raw)).
Proof.
  intros H. rewrite restrictInput_processWith.
  apply processWith_legal; auto with legal.
Qed.

End Alphabet.

(** * Further properties of the directive *)

(** ** The separator scan *)

Section Scan.

Lemma findSlashFrom_limit_0 (value : jsstring) :
  forall i count, findSlashFrom value i count 0 = 0.
Proof.
  induction value as [|c rest IH]; intros i count;
    cbn [findSlashFrom Nat.eqb]; auto.
  destruct (is_slash c); auto.
Qed.

Lemma findSlashFrom_app_found (pre rest : jsstring) :
  forall i count limit,
    count < limit -> limit <= count + countSlashes pre ->
    findSlashFrom (pre ++ rest) i count limit = findSlashFrom pre i count limit.
Proof.
  induction pre as [|c pre IH]; intros i count limit Hlt Hle.
  - unfold countSlashes in Hle. simpl in Hle. lia.
  - rewrite countSlashes_cons in Hle. cbn [app findSlashFrom].
    destruct (is_slash c).
    + destruct (Nat.eqb (S count) limit) eqn:E; auto.
      apply Nat.eqb_neq in E. apply IH; lia.
    + apply IH; simpl in Hle; lia.
Qed.

Lemma findSlashFrom_app_skip (pre rest : jsstring) :
  forall i count limit,
    countSlashes pre = 0 ->
    findSlashFrom (pre ++ rest) i count limit
    = findSlashFrom rest (i + length pre) count limit.
Proof.
  induction pre as [|c pre IH]; intros i count limit H.
  - simpl. now rewrite Nat.add_0_r.
  - rewrite countSlashes_cons in H. cbn [app findSlashFrom length].
    destruct (is_slash c); [simpl in H; lia|].
    rewrite IH by (simpl in H; lia). f_equal. lia.
Qed.

End Scan.

(** X1, [findSlashPosition]: when the text holds at least [limit] slashes
    (and [limit] is at least 1) the result is the index of the [limit]-th
    slash, the one with exactly [limit - 1] slashes before it; when the
    text holds fewer, or [limit] is 0, the result is 0. *)
Theorem findSlashPosition_nth_slash (value : jsstring) (limit : nat) :
  (1 <= limit <= countSlashes value ->
     exists pre post,
       value = pre ++ slash :: post /\
       countSlashes pre = limit - 1 /\
       findSlashPosition value limit = length pre) /\
  (countSlashes value < limit -> findSlashPosition value limit = 0) /\
  findSlashPosition value 0 = 0.
Proof.
  split; [|split].
  - intros H.
    destruct (findSlashFrom_found value 0 0 limit) as (pre & post & E & F & G);
      try lia.
    exists pre, post. unfold findSlashPosition. simpl in *. repeat split; auto; lia.
  - intros H. apply findSlashFrom_missing. lia.
  - apply findSlashFrom_limit_0.
Qed.

Lemma findSlashPosition_nth_slash_witness :
  (exists pre post,
     js "12/31/2020" = pre ++ slash :: post /\
     countSlashes pre = 2 - 1 /\
     findSlashPosition (js "12/31/2020") 2 = length pre) /\
  findSlashPosition (js "12/31") 2 = 0.
Proof.
  split.
  - apply (proj1 (findSlashPosition_nth_slash (js "12/31/2020") 2)).
    vm_compute. lia.
  - apply (proj1 (proj2 (findSlashPosition_nth_slash (js "12/31") 2))).
    vm_compute. lia.
Defined.

(** X2, [findSlashPosition]: the answer 0 for the first slash is
    ambiguous; it is returned exactly when the text holds no slash at all
    or starts with one. *)
Theorem findSlashPosition_zero_ambiguous (value : jsstring) :
  findSlashPosition value 1 = 0 <->
  countSlashes value = 0 \/ firstIs slash value = true.
Proof.
  split.
  - intros H. destruct (firstIs slash value) eqn:Hf; [now right | left].
    destruct (countSlashes value) eqn:Hc; auto.
    destruct (findSlashFrom_found value 0 0 1) as (pre & post & E & F & _); try lia.
    pose proof (firstIs_slash_count value Hf pre post E).
    unfold findSlashPosition in H. simpl in F. lia.
  - intros [H|H].
    + apply findSlashFrom_missing. lia.
    + destruct value as [|c rest]; [discriminate|].
      simpl in H. apply Ascii.eqb_eq in H. subst c. reflexivity.
Qed.

(** ** Normalised fields *)

Section Normalise.

Lemma Number_dropZeros (s : jsstring) : Number (dropZeros s) = Number s.
Proof.
  unfold Number. induction s as [|c s IH]; auto.
  cbn [dropZeros]. destruct (is_zero c) eqn:E; auto.
  unfold is_zero in E. apply Ascii.eqb_eq in E. subst c.
  rewrite IH. reflexivity.
Qed.

Lemma Number_zero_cons (s : jsstring) : Number (zero :: s) = Number s.
Proof. reflexivity. Qed.

Lemma Number_removeLeadingZero (input : jsstring) :
  Number (removeLeadingZero input) = Number input.
Proof.
  unfold removeLeadingZero, replaceLeadingZeros.
  repeat split_if; auto; cbn [app];
    rewrite ?Number_zero_cons; apply Number_dropZeros.
Qed.

Lemma dropZeros_length (s : jsstring) : length (dropZeros s) <= length s.
Proof.
  induction s as [|c s IH]; simpl; auto.
  destruct (is_zero c); simpl; lia.
Qed.

Lemma dropZeros_lt (s : jsstring) :
  firstIs zero s = true -> length (dropZeros s) < length s.
Proof.
  destruct s as [|c s]; [discriminate|]. simpl. unfold is_zero. intros ->.
  pose proof (dropZeros_length s). lia.
Qed.

Lemma removeLeadingZero_fixed (input : jsstring) :
  doubleZero input = false ->
  (gtNum (Number input) 9 = true -> firstIs zero input = false) ->
  removeLeadingZero input = input.
Proof.
  intros Hd Hz.
  destruct (gtNum (Number input) 9) eqn:E.
  - rewrite removeLeadingZero_big by auto. apply dropZeros_id. auto.
  - rewrite removeLeadingZero_small by auto.
    destruct (firstIs zero input) eqn:F; auto.
    destruct input as [|a [|b t]]; try discriminate.
    + simpl in F. unfold is_zero; simpl. apply Ascii.eqb_eq in F. subst a. reflexivity.
    + simpl in F, Hd. apply Ascii.eqb_eq in F. subst a.
      unfold is_zero in Hd. rewrite Ascii.eqb_refl in Hd. simpl in Hd.
      cbn [dropZeros]. unfold is_zero at 1. rewrite Ascii.eqb_refl.
      cbn [dropZeros]. unfold is_zero. now rewrite Hd.
Qed.

Lemma removeLeadingZero_nonempty (input : jsstring) :
  isEmpty (removeLeadingZero input) = isEmpty input.
Proof.
  destruct (gtNum (Number input) 9) eqn:E.
  - rewrite removeLeadingZero_big by auto.
    rewrite <- Number_dropZeros in E.
    destruct (dropZeros input) eqn:D; [discriminate|].
    destruct input; [discriminate|reflexivity].
  - rewrite removeLeadingZero_small by auto.
    destruct input as [|c t]; auto. simpl. now destruct (Ascii.eqb c zero).
Qed.

End Normalise.

(** X3, [removeLeadingZero]: normalising never changes the numeric value
    ([Number]) of a text, never lengthens it, never turns a non-empty text
    into the empty one, and so never changes what [getNoOfDays] answers
    for it. *)
Theorem removeLeadingZero_keeps_value (input : jsstring) :
  Number (removeLeadingZero input) = Number input /\
  length (removeLeadingZero input) <= length input /\
  isEmpty (removeLeadingZero input) = isEmpty input /\
  getNoOfDays (removeLeadingZero input) = getNoOfDays input.
Proof.
  split; [apply Number_removeLeadingZero|].
  split; [|split; [apply removeLeadingZero_nonempty|]].
  - destruct (gtNum (Number input) 9) eqn:E.
    + rewrite removeLeadingZero_big by auto. apply dropZeros_length.
    + rewrite removeLeadingZero_small by auto.
      destruct (firstIs zero input) eqn:F; auto.
      apply dropZeros_lt in F. simpl. lia.
  - unfold getNoOfDays.
    now rewrite removeLeadingZero_nonempty, Number_removeLeadingZero.
Qed.

(** X4, [removeLeadingZero]: normalising twice is the same as normalising
    once. *)
Theorem removeLeadingZero_idempotent (input : jsstring) :
  removeLeadingZero (removeLeadingZero input) = removeLeadingZero input.
Proof.
  apply removeLeadingZero_fixed.
  - apply removeLeadingZero_no_doubleZero.
  - rewrite Number_removeLeadingZero. intros H.
    rewrite removeLeadingZero_big by auto. apply dropZeros_no_zero.
Qed.

(** X5, [getNoOfDays]: the answer is always between 29 and 31, and for a
    non-empty month text whose value exceeds 12 it is 29. *)
Theorem getNoOfDays_range (month : jsstring) :
  (29 <= getNoOfDays month <= 31)%Z /\
  (gtNum (Number month) 12 = true -> month <> [] -> getNoOfDays month = 29%Z).
Proof.
  unfold getNoOfDays, februaryDays. split.
  - repeat split_if; lia.
  - intros H Hne. apply isEmpty_false in Hne. rewrite Hne.
    destruct (Number month) as [n|]; [|discriminate].
    simpl in H. apply Z.ltb_lt in H.
    assert (includes thirtyOneDaysMonths (Some n) = false) as ->.
    { apply includes_not_In. simpl. lia. }
    assert (includes thirtyDaysMonths (Some n) = false) as ->.
    { apply includes_not_In. simpl. lia. }
    reflexivity.
Qed.
Lemma getNoOfDays_range_witness :
  (29 <= getNoOfDays (js "13") <= 31)%Z /\ getNoOfDays (js "13") = 29%Z.
Proof.
  split.
  - apply (proj1 (getNoOfDays_range (js "13"))).
  - apply (proj2 (getNoOfDays_range (js "13"))); [reflexivity | discriminate].
Defined.


(** ** Truncation at the third separator *)

Section Truncate.

Lemma countSlashes_length (s : jsstring) : countSlashes s <= length s.
Proof. unfold countSlashes. apply filter_length_le. Qed.

Lemma removeSlashAfterThirdOccurrence_few (value : jsstring) :
  countSlashes value <= 2 -> removeSlashAfterThirdOccurrence value = value.
Proof.
  intros H. unfold removeSlashAfterThirdOccurrence, findSlashPosition.
  rewrite findSlashFrom_missing by lia. reflexivity.
Qed.

Lemma removeSlashAfterThirdOccurrence_many (value : jsstring) :
  2 < countSlashes value ->
  exists pre post,
    value = pre ++ slash :: post /\ countSlashes pre = 2 /\
    removeSlashAfterThirdOccurrence value = pre.
Proof.
  intros H.
  destruct (findSlashFrom_found value 0 0 3) as (pre & post & E & F & G); try lia.
  exists pre, post. simpl in F, G. repeat split; auto; try lia.
  unfold removeSlashAfterThirdOccurrence, findSlashPosition. rewrite F.
  pose proof (countSlashes_length pre).
  assert (Hp : (0 <? length pre) = true) by (apply Nat.ltb_lt; lia).
  rewrite Hp, substring_0, E. apply firstn_length_app.
Qed.

Lemma countSlashes_stripIllegal (s : jsstring) :
  countSlashes (stripIllegal s) = countSlashes s.
Proof.
  induction s as [|c s IH]; auto.
  unfold stripIllegal in *. cbn [filter].
  destruct (is_slash c) eqn:E.
  - rewrite orb_true_r. rewrite !countSlashes_cons, E, IH. reflexivity.
  - rewrite orb_false_r. destruct (is_digit c).
    + rewrite !countSlashes_cons, E, IH. reflexivity.
    + rewrite countSlashes_cons, E, IH. reflexivity.
Qed.

Lemma checkSlashPosition_cases (value : jsstring) :
  checkSlashPosition value = [] \/
  (firstIs slash value = false /\
   (checkSlashPosition value = value /\ countSlashes value <= 2 \/
    exists pre post, value = pre ++ slash :: post /\ countSlashes pre = 2 /\
                     checkSlashPosition value = pre)).
Proof.
  unfold checkSlashPosition.
  destruct (firstIs slash value) eqn:Hf; [now left | right].
  split; auto.
  destruct (2 <? countSlashes value) eqn:Hc.
  - apply Nat.ltb_lt in Hc. right.
    now apply removeSlashAfterThirdOccurrence_many.
  - apply Nat.ltb_ge in Hc. now left.
Qed.

Lemma firstIs_app (c : ascii) (pre rest : jsstring) :
  pre <> [] -> firstIs c (pre ++ rest) = firstIs c pre.
Proof. destruct pre; [congruence | reflexivity]. Qed.

End Truncate.

(** X6, [removeSlashAfterThirdOccurrence]: the result is a prefix of the
    text, it holds as many slashes as the text up to a maximum of two
    (a leading slash included), and applying the function again changes
    nothing. *)
Theorem removeSlashAfterThirdOccurrence_prefix (value : jsstring) :
  countSlashes (removeSlashAfterThirdOccurrence value)
  = Nat.min 2 (countSlashes value) /\
  (exists rest, value = removeSlashAfterThirdOccurrence value ++ rest) /\
  removeSlashAfterThirdOccurrence (removeSlashAfterThirdOccurrence value)
  = removeSlashAfterThirdOccurrence value.
Proof.
  destruct (Nat.le_gt_cases (countSlashes value) 2) as [H|H].
  - rewrite !removeSlashAfterThirdOccurrence_few by auto.
    repeat split; try lia. exists []. now rewrite app_nil_r.
  - destruct (removeSlashAfterThirdOccurrence_many value H)
      as (pre & post & E & C & R).
    rewrite R. rewrite removeSlashAfterThirdOccurrence_few by lia.
    repeat split; try lia. exists (slash :: post). exact E.
Qed.

(** X7, [checkSlashPosition]: sanitising twice is the same as sanitising
    once, the result is a prefix of the text, and after the illegal
    characters are stripped it still holds at most two slashes. *)
Theorem checkSlashPosition_idempotent (value : jsstring) :
  checkSlashPosition (checkSlashPosition value) = checkSlashPosition value /\
  (exists rest, value = checkSlashPosition value ++ rest) /\
  countSlashes (stripIllegal (checkSlashPosition value)) <= 2.
Proof.
  destruct (checkSlashPosition_cases value)
    as [E|(Hf & [(E & C)|(pre & post & E & C & R)])].
  - rewrite E. repeat split.
    + now exists value.
    + vm_compute. lia.
  - rewrite !E. repeat split.
    + exists []. now rewrite app_nil_r.
    + now rewrite countSlashes_stripIllegal.
  - rewrite R. repeat split.
    + assert (Hne : pre <> []) by (intros ->; discriminate).
      unfold checkSlashPosition.
      rewrite E, firstIs_app in Hf by auto. rewrite Hf, C. reflexivity.
    + exists (slash :: post). auto.
    + rewrite countSlashes_stripIllegal. lia.
Qed.

(** X8, [checkSlashPosition] and [findSlashPosition]: for a text that does
    not start with a slash, cutting at the third slash leaves the positions
    of the first and second slash where they were, and no third slash
    remains. *)
Theorem checkSlashPosition_keeps_dividers (value : jsstring) (k : nat) :
  firstIs slash value = false -> 1 <= k <= 2 ->
  findSlashPosition (checkSlashPosition value) k = findSlashPosition value k /\
  findSlashPosition (checkSlashPosition value) 3 = 0.
Proof.
  intros Hf Hk.
  destruct (checkSlashPosition_cases value)
    as [E|(_ & [(E & C)|(pre & post & E & C & R)])].
  - unfold checkSlashPosition in E. rewrite Hf in E.
    destruct (2 <? countSlashes value) eqn:Hc.
    + apply Nat.ltb_lt in Hc.
      destruct (removeSlashAfterThirdOccurrence_many value Hc)
        as (pre & post & _ & C & R).
      rewrite E in R. subst pre. discriminate.
    + subst value. unfold checkSlashPosition. simpl. destruct k as [|[|[|k]]]; auto.
  - rewrite E. split; auto. apply findSlashFrom_missing. lia.
  - rewrite R. split.
    + rewrite E. unfold findSlashPosition.
      symmetry. apply findSlashFrom_app_found; lia.
    + apply findSlashFrom_missing. lia.
Qed.

Lemma checkSlashPosition_keeps_dividers_witness :
  findSlashPosition (checkSlashPosition (js "1/2/3/4")) 2
  = findSlashPosition (js "1/2/3/4") 2 /\
  findSlashPosition (checkSlashPosition (js "1/2/3/4")) 3 = 0.
Proof.
  apply checkSlashPosition_keeps_dividers; [reflexivity | lia].
Defined.

(** ** Invariants of the stored fields *)

Section Invariants.

Lemma getNoOfDays_le_31 (m : jsstring) : (getNoOfDays m <= 31)%Z.
Proof. unfold getNoOfDays, februaryDays. repeat split_if; lia. Qed.

Lemma gtNum_mono (n : num) (a b : Z) :
  gtNum n a = false -> (a <= b)%Z -> gtNum n b = false.
Proof.
  destruct n as [v|]; simpl; auto.
  intros H Hab. apply Z.ltb_ge in H. apply Z.ltb_ge. lia.
Qed.

Lemma gtNum_removeLeadingZero (c : jsstring) (k : Z) :
  gtNum (Number (removeLeadingZero c)) k = gtNum (Number c) k.
Proof. now rewrite Number_removeLeadingZero. Qed.

Lemma processWith_inBounds (cfg : config) (s : state) (v : jsstring) (d1 d2 : nat) :
  inBounds s -> inBounds (fst (processWith cfg s v d1 d2)).
Proof.
  destruct cfg as [f a b], s as [sd sm sy sdt].
  unfold inBounds. intros (Hm & Hd). norm.
  unfold_process. norm.
  destruct f; destruct (absent d1) eqn:A1; destruct (absent d2) eqn:A2; norm.
  all: repeat (split_if; norm).
  all: rewrite ?gtNum_removeLeadingZero.
  all: repeat match goal with
              | H : _ || _ = false |- _ => apply orb_false_elim in H; destruct H
              end.
  all: split; auto.
  all: try (eapply gtNum_mono; [eassumption | apply getNoOfDays_le_31]).
Qed.

Lemma processWith_yearOk (cfg : config) (s : state) (v : jsstring) (d1 d2 : nat) :
  (0 <= endYear cfg)%Z ->
  yearOk cfg (year s) -> yearOk cfg (year (fst (processWith cfg s v d1 d2))).
Proof.
  destruct cfg as [f a b], s as [sd sm sy sdt].
  unfold yearOk. norm. intros He Hy.
  assert (Nil : firstIs zero [] = false /\ gtNum (Number []) b = false /\
                (4 <=? length (@nil ascii))%nat && ltNum (Number []) a = false).
  { repeat split; auto. simpl. apply Z.ltb_ge. lia. }
  unfold_process. norm.
  destruct f; destruct (absent d1) eqn:A1; destruct (absent d2) eqn:A2; norm.
  all: repeat (split_if; norm).
  all: auto.
  all: repeat match goal with
              | H : isEmpty ?x = true |- _ => apply isEmpty_true in H; rewrite H
              end; auto.
  all: repeat match goal with
              | H : _ || _ = false |- _ => apply orb_false_elim in H; destruct H
              end.
  all: repeat split; auto.
Qed.

End Invariants.

(** X9, [restrictInput]: if the stored month does not exceed 12 and the
    stored day does not exceed 31, the same holds after the keystroke,
    whatever the text and the format. *)
Theorem restrictInput_keeps_bounds (cfg : config) (s : state) (raw : jsstring) :
  inBounds s -> inBounds (fst (restrictInput cfg s raw)).
Proof. rewrite restrictInput_processWith. apply processWith_inBounds. Qed.

Lemma restrictInput_keeps_bounds_witness :
  inBounds (fst (restrictInput defaultConfig initial (js "13/45/2020"))).
Proof.
  apply restrictInput_keeps_bounds. split; reflexivity.
Defined.

(** X10, [restrictInput]: with a non-negative [endYear], a stored year
    that has no leading zero, is not above [endYear], and is not below
    [startYear] once it has four characters, keeps these three properties
    after the keystroke. *)
Theorem restrictInput_keeps_yearOk (cfg : config) (s : state) (raw : jsstring) :
  (0 <= endYear cfg)%Z ->
  yearOk cfg (year s) -> yearOk cfg (year (fst (restrictInput cfg s raw))).
Proof. rewrite restrictInput_processWith. apply processWith_yearOk. Qed.

Lemma restrictInput_keeps_yearOk_witness :
  yearOk (mkConfig DMY 2000 2030) 
    (year (fst (restrictInput (mkConfig DMY 2000 2030) initial (js "1/1/2031")))).
Proof.
  apply restrictInput_keeps_yearOk; [simpl; lia|].
  repeat split.
Defined.

(** X11, [restrictInput]: fields beyond the last separator typed are
    emptied: without a second separator the stored year becomes empty,
    without a first separator the second field of the format (the day for
    'mm/dd/yyyy', the month for 'dd/mm/yyyy') becomes empty. *)
Theorem restrictInput_clears_untyped_fields (cfg : config) (s : state) (raw : jsstring) :
  let s' := fst (restrictInput cfg s raw) in
  (findSlashPosition raw 2 = 0 -> year s' = []) /\
  (findSlashPosition raw 1 = 0 ->
     match dateFormat cfg with MDY => day s' = [] | DMY => month s' = [] end).
Proof.
  rewrite restrictInput_processWith.
  generalize (stripIllegal (checkSlashPosition raw)) as v.
  generalize (findSlashPosition raw 1) as d1.
  generalize (findSlashPosition raw 2) as d2.
  intros d2 d1 v.
  unfold processWith.
  destruct (rearrangeBasedOnDateFormat cfg s v d1 d2) as [s1 v1].
  destruct (if absent d2 then _ else _) as [s2 v2].
  unfold clearSpecificPartOfDateIfEmpty. cbn [fst].
  split; intros ->; destruct (dateFormat cfg); reflexivity.
Qed.

Lemma restrictInput_clears_untyped_fields_witness :
  year (fst (restrictInput defaultConfig
               (mkState (js "31") (js "12") (js "2020") []) (js "12/3"))) = [] /\
  day (fst (restrictInput defaultConfig
              (mkState (js "31") (js "12") (js "2020") []) (js "1"))) = [].
Proof.
  split.
  - apply (proj1 (restrictInput_clears_untyped_fields defaultConfig
                    (mkState (js "31") (js "12") (js "2020") []) (js "12/3"))).
    reflexivity.
  - apply (proj2 (restrictInput_clears_untyped_fields defaultConfig
                    (mkState (js "31") (js "12") (js "2020") []) (js "1"))).
    reflexivity.
Defined.

(** X12, [restrictInput]: when the stored fields hold only digits and
    slashes, so do the stored fields and the displayed text after the
    keystroke, whatever characters the input holds. *)
Theorem restrictInput_alphabet (cfg : config) (s : state) (raw : jsstring) :
  LegalState s ->
  LegalState (fst (restrictInput cfg s raw)) /\
  Legal (snd (restrictInput cfg s raw)).
Proof. apply restrictInput_legal. Qed.

Lemma restrictInput_alphabet_witness :
  LegalState (fst (restrictInput defaultConfig initial (js "1a/2b/20x20"))) /\
  Legal (snd (restrictInput defaultConfig initial (js "1a/2b/20x20"))).
Proof.
  apply restrictInput_alphabet. repeat split; constructor.
Defined.


(** ** Well-formed texts *)

Section WellFormed.

Lemma skipn_length_app (f rest : jsstring) (k : nat) :
  skipn (length f + k) (f ++ rest) = skipn k rest.
Proof. induction f; simpl; auto. Qed.

Lemma firstn_length_app_more (f rest : jsstring) (k : nat) :
  firstn (length f + k) (f ++ rest) = f ++ firstn k rest.
Proof. induction f; simpl; auto. now f_equal. Qed.

Lemma Number_digits (x : jsstring) (n : Z) :
  Number x = Some n -> forallb is_digit x = true.
Proof. apply digitsValue_digits. Qed.

Lemma digits_first_not_slash (x rest : jsstring) :
  forallb is_digit x = true -> x <> [] -> firstIs slash (x ++ rest) = false.
Proof.
  destruct x as [|c x]; [congruence|]. simpl. intros H _.
  apply andb_true_iff in H. destruct H as [H _].
  now apply digit_not_slash in H.
Qed.

Variables f g y : jsstring.
Hypothesis Hf : forallb is_digit f = true.
Hypothesis Hg : forallb is_digit g = true.
Hypothesis Hy : forallb is_digit y = true.
Hypothesis Hfne : f <> [].

Let raw2 := f ++ slash :: g ++ slash :: y.
Let raw1 := f ++ slash :: g.

Lemma raw2_dividers :
  findSlashPosition raw2 1 = length f /\
  findSlashPosition raw2 2 = length f + 1 + length g.
Proof.
  unfold raw2, findSlashPosition. split.
  - rewrite findSlashFrom_app_skip by (now apply digits_countSlashes).
    reflexivity.
  - rewrite findSlashFrom_app_skip by (now apply digits_countSlashes).
    cbn [findSlashFrom]. change (is_slash slash) with true. cbn [Nat.eqb].
    rewrite findSlashFrom_app_skip by (now apply digits_countSlashes).
    cbn [findSlashFrom]. change (is_slash slash) with true. cbn [Nat.eqb].
    lia.
Qed.

Lemma raw1_dividers :
  findSlashPosition raw1 1 = length f /\ findSlashPosition raw1 2 = 0.
Proof.
  unfold raw1, findSlashPosition. split.
  - rewrite findSlashFrom_app_skip by (now apply digits_countSlashes).
    reflexivity.
  - apply findSlashFrom_missing.
    rewrite countSlashes_app, countSlashes_cons.
    rewrite !digits_countSlashes by auto. change (is_slash slash) with true. cbv iota. lia.
Qed.

Lemma raw2_sanitised : stripIllegal (checkSlashPosition raw2) = raw2.
Proof.
  assert (C : countSlashes raw2 = 2).
  { unfold raw2. rewrite countSlashes_app, countSlashes_cons, countSlashes_app,
      countSlashes_cons, !digits_countSlashes by auto.
    change (is_slash slash) with true. cbv iota. lia. }
  unfold checkSlashPosition.
  unfold raw2 at 1. rewrite digits_first_not_slash by auto.
  rewrite C. cbn [Nat.ltb Nat.leb].
  unfold raw2, stripIllegal. rewrite filter_app. cbn [filter].
  change (is_digit slash || is_slash slash) with true. cbv iota.
  rewrite filter_app. cbn [filter].
  change (is_digit slash || is_slash slash) with true. cbv iota.
  fold (stripIllegal f) (stripIllegal g) (stripIllegal y).
  now rewrite !digits_stripIllegal by auto.
Qed.

Lemma raw1_sanitised : stripIllegal (checkSlashPosition raw1) = raw1.
Proof.
  assert (C : countSlashes raw1 = 1).
  { unfold raw1. rewrite countSlashes_app, countSlashes_cons,
      !digits_countSlashes by auto.
    change (is_slash slash) with true. cbv iota. lia. }
  unfold checkSlashPosition.
  unfold raw1 at 1. rewrite digits_first_not_slash by auto.
  rewrite C. cbn [Nat.ltb Nat.leb].
  unfold raw1, stripIllegal. rewrite filter_app. cbn [filter].
  change (is_digit slash || is_slash slash) with true. cbv iota.
  fold (stripIllegal f) (stripIllegal g).
  now rewrite !digits_stripIllegal by auto.
Qed.

(** The pieces the validators cut out of a text with one or more
    separators after the first field. *)
Lemma first_pieces (rest : jsstring) :
  slice (f ++ rest) 0 (length f) = f /\
  sliceFrom (f ++ rest) (length f) = rest.
Proof.
  unfold slice, sliceFrom. split.
  - simpl. rewrite Nat.sub_0_r. apply firstn_length_app.
  - rewrite <- (Nat.add_0_r (length f)). apply skipn_length_app.
Qed.

Lemma second_pieces_open :
  slice raw1 0 (length f + 1) = f ++ [slash] /\
  sliceFrom raw1 (length f + 1) = g /\
  sliceFrom raw1 (length f + 1 + length g) = [].
Proof.
  unfold raw1, slice, sliceFrom. repeat split.
  - simpl. rewrite Nat.sub_0_r, firstn_length_app_more. reflexivity.
  - rewrite skipn_length_app. reflexivity.
  - replace (length f + 1 + length g) with (length f + S (length g)) by lia.
    rewrite skipn_length_app. simpl. apply skipn_all.
Qed.

Lemma second_pieces_closed :
  slice raw2 0 (length f + 1) = f ++ [slash] /\
  slice raw2 (length f + 1) (length f + 1 + length g) = g /\
  sliceFrom raw2 (length f + 1 + length g) = slash :: y /\
  sliceFrom raw2 (length f + 1 + length g + 1) = y /\
  slice raw2 0 (length f + 1 + length g) = f ++ slash :: g.
Proof.
  unfold raw2, slice, sliceFrom. repeat split.
  - simpl. rewrite Nat.sub_0_r, firstn_length_app_more. reflexivity.
  - rewrite skipn_length_app. cbn [skipn].
    replace (length f + 1 + length g - (length f + 1)) with (length g) by lia.
    apply firstn_length_app.
  - replace (length f + 1 + length g) with (length f + S (length g)) by lia.
    rewrite skipn_length_app. cbn [skipn].
    rewrite <- (Nat.add_0_r (length g)). apply skipn_length_app.
  - replace (length f + 1 + length g + 1) with (length f + S (length g + 1)) by lia.
    rewrite skipn_length_app. cbn [skipn].
    rewrite skipn_length_app. reflexivity.
  - simpl. rewrite Nat.sub_0_r.
    replace (length f + 1 + length g) with (length f + S (length g)) by lia.
    rewrite firstn_length_app_more. cbn [firstn].
    rewrite <- (Nat.add_0_r (length g)), firstn_length_app_more. simpl.
    now rewrite app_nil_r.
Qed.

End WellFormed.

Section Accept.

Lemma gtNum_le (n k : Z) : (n <= k)%Z -> gtNum (Some n) k = false.
Proof. intros H. simpl. apply Z.ltb_ge. lia. Qed.

Lemma validateMonthIfBeforeDay_accepts (s : state) (m rest : jsstring) (a : Z) :
  m <> [] -> Number m = Some a -> (a <= 12)%Z -> removeLeadingZero m = m ->
  validateMonthIfBeforeDay s (m ++ rest) (length m) = (setMonth s m, m ++ rest).
Proof.
  intros Hne Hn Ha Hr. unfold validateMonthIfBeforeDay.
  assert (absent (length m) = false) as ->
      by (apply absent_false; destruct m; simpl; congruence).
  destruct (first_pieces m rest) as [-> E].
  rewrite Hn, gtNum_le, Hr, E by auto. reflexivity.
Qed.

Lemma validateDayIfBeforeMonth_accepts (s : state) (d rest : jsstring) (b : Z) :
  d <> [] -> Number d = Some b -> (b <= 31)%Z -> removeLeadingZero d = d ->
  validateDayIfBeforeMonth s (d ++ rest) (length d) = (setDay s d, d ++ rest).
Proof.
  intros Hne Hn Hb Hr. unfold validateDayIfBeforeMonth.
  assert (absent (length d) = false) as ->
      by (apply absent_false; destruct d; simpl; congruence).
  destruct (first_pieces d rest) as [-> E].
  rewrite Hn, gtNum_le, Hr, E by auto. reflexivity.
Qed.

Lemma validateDayIfAfterMonth_accepts (s : state) (value g : jsstring)
    (d1 d2 : nat) (b : Z) :
  month s <> [zero] ->
  (if absent d2 then sliceFrom value (d1 + 1) else slice value (d1 + 1) d2) = g ->
  g <> [] -> Number g = Some b -> (b <= getNoOfDays (month s))%Z ->
  removeLeadingZero g = g ->
  slice value 0 (length (month s) + 1) ++ g
    ++ sliceFrom value (length (month s) + 1 + length g) = value ->
  validateDayIfAfterMonth s value d1 d2 = (setDay s g, value).
Proof.
  intros Hm Hg Hne Hn Hb Hr Hv. unfold validateDayIfAfterMonth.
  apply strictEq_false in Hm. apply isEmpty_false in Hne.
  rewrite Hm, Hg, Hne, Hn, gtNum_le, Hr by auto. cbn [day setDay].
  now rewrite Hv.
Qed.

Lemma validateMonthIfAfterDay_accepts (s : state) (value g : jsstring)
    (d1 d2 : nat) (a b : Z) :
  day s <> [zero] ->
  (if absent d2 then sliceFrom value (d1 + 1) else slice value (d1 + 1) d2) = g ->
  g <> [] -> Number g = Some a -> (a <= 12)%Z ->
  Number (day s) = Some b -> (b <= getNoOfDays g)%Z ->
  removeLeadingZero g = g ->
  slice value 0 (length (day s) + 1) ++ g
    ++ sliceFrom value (length (day s) + 1 + length g) = value ->
  validateMonthIfAfterDay s value d1 d2 = (setMonth s g, value).
Proof.
  intros Hd Hg Hne Hn Ha Hdn Hb Hr Hv. unfold validateMonthIfAfterDay.
  apply strictEq_false in Hd. apply isEmpty_false in Hne.
  rewrite Hd, Hg, Hne, Hn, Hdn, !gtNum_le, Hr by auto. cbn [month setMonth orb].
  now rewrite Hv.
Qed.

Lemma validateYear_accepts (cfg : config) (s : state) (value y : jsstring)
    (d : nat) :
  d <> 0 -> day s <> [zero] -> month s <> [zero] ->
  sliceFrom value (d + 1) = y -> goodYear cfg (day s) (month s) y ->
  validateYear cfg s value d = (setYear s y, value).
Proof.
  intros Hd D M Hy (Hz & c & Hn & He & Hs & Hl).
  unfold validateYear.
  apply absent_false in Hd. rewrite Hd, no_sentinel, Hy by auto.
  destruct (isEmpty y) eqn:Em; [reflexivity|].
  rewrite Hz, Hn, (gtNum_le c (endYear cfg) He).
  assert ((4 <=? length y) && ltNum (Some c) (startYear cfg) = false) as ->.
  { destruct (4 <=? length y) eqn:L; auto. apply Nat.leb_le in L.
    simpl. apply Z.ltb_ge. auto. }
  cbn [orb].
  destruct (isFebruary (month s) && strictEq (day s) (js "29")
            && Nat.eqb (length y) 4 && negb (checkIsLeapYear y)) eqn:F;
    [|reflexivity].
  repeat (apply andb_true_iff in F; destruct F as [F ?]).
  apply strictEq_true in H1. apply Nat.eqb_eq in H0.
  apply negb_true_iff in H. apply (checkIsLeapYear_not_leap y c Hn) in H.
  exfalso. apply H. auto.
Qed.

Lemma goodDayMonth_digits (d m : jsstring) :
  goodDayMonth d m ->
  forallb is_digit d = true /\ forallb is_digit m = true /\
  exists b, Number d = Some b /\ (b <= 31)%Z.
Proof.
  intros (_ & _ & _ & _ & _ & _ & a & b & Hm & Hd & _ & Hb).
  repeat split; try (eapply Number_digits; eauto).
  exists b. split; auto. pose proof (getNoOfDays_le_31 m). lia.
Qed.

Lemma clear_nothing (cfg : config) (s : state) (d1 d2 : nat) :
  d1 <> 0 -> d2 <> 0 -> clearSpecificPartOfDateIfEmpty cfg s d1 d2 = s.
Proof.
  intros H1 H2. apply absent_false in H1, H2.
  unfold clearSpecificPartOfDateIfEmpty. rewrite H1, H2.
  destruct s, (dateFormat cfg); reflexivity.
Qed.

Lemma rearrange_complete (cfg : config) (s : state) (d m y : jsstring) :
  goodDayMonth d m ->
  let raw := firstField cfg d m ++ slash :: secondField cfg d m ++ slash :: y in
  forallb is_digit y = true ->
  rearrangeBasedOnDateFormat cfg s raw
    (length (firstField cfg d m))
    (length (firstField cfg d m) + 1 + length (secondField cfg d m))
  = (mkState d m (year s) (date s), raw).
Proof.
  intros G raw Hy.
  destruct (goodDayMonth_digits d m G) as (Dd & Dm & b31 & Hb31 & Hle31).
  destruct G as (Dne & Mne & Dz & Mz & Dr & Mr & a & b & Hm & Hd & Ha & Hb).
  unfold rearrangeBasedOnDateFormat, raw, firstField, secondField.
  destruct s as [sd sm sy sdt]. destruct (dateFormat cfg).
  - rewrite (validateMonthIfBeforeDay_accepts _ m _ a) by auto.
    assert (absent (length m) = false) as ->
        by (apply absent_false; destruct m; simpl; congruence).
    destruct (second_pieces_closed m d y) as (P1 & P2 & P3 & _).
    rewrite (validateDayIfAfterMonth_accepts _ _ d _ _ b); auto.
    + assert (absent (length m + 1 + length d) = false) as ->
          by (apply absent_false; lia).
      exact P2.
    + cbn [month setMonth]. rewrite P1, P3, <- app_assoc. reflexivity.
  - rewrite (validateDayIfBeforeMonth_accepts _ d _ b31) by auto.
    assert (absent (length d) = false) as ->
        by (apply absent_false; destruct d; simpl; congruence).
    destruct (second_pieces_closed d m y) as (P1 & P2 & P3 & _).
    rewrite (validateMonthIfAfterDay_accepts _ _ m _ _ a b); auto.
    + assert (absent (length d + 1 + length m) = false) as ->
          by (apply absent_false; lia).
      exact P2.
    + cbn [day setDay]. rewrite P1, P3, <- app_assoc. reflexivity.
Qed.

Lemma restrictInput_complete (cfg : config) (s : state) (d m y : jsstring) :
  goodDayMonth d m -> goodYear cfg d m y ->
  let raw := firstField cfg d m ++ slash :: secondField cfg d m ++ slash :: y in
  length raw <= 10 ->
  restrictInput cfg s raw = (mkState d m y (date s), raw).
Proof.
  intros G Y raw Hlen.
  destruct (goodDayMonth_digits d m G) as (Dd & Dm & _).
  assert (Hy : forallb is_digit y = true).
  { destruct Y as (_ & c & Hn & _). eapply Number_digits; eauto. }
  assert (Hdg : forallb is_digit (firstField cfg d m) = true /\
                forallb is_digit (secondField cfg d m) = true /\
                firstField cfg d m <> []).
  { destruct G as (Dne & Mne & _).
    unfold firstField, secondField. destruct (dateFormat cfg); auto. }
  destruct Hdg as (Hf & Hg & Hfne).
  rewrite restrictInput_processWith.
  unfold raw.
  rewrite raw2_sanitised by auto.
  destruct (raw2_dividers (firstField cfg d m) (secondField cfg d m) y Hf Hg)
    as [-> ->].
  unfold processWith.
  pose proof (rearrange_complete cfg s d m y G Hy) as R. cbv zeta in R.
  rewrite R. clear R. fold raw.
  set (d2 := length (firstField cfg d m) + 1 + length (secondField cfg d m)).
  assert (absent d2 = false) as -> by (apply absent_false; unfold d2; lia).
  destruct (second_pieces_closed (firstField cfg d m) (secondField cfg d m) y)
    as (_ & _ & _ & P4 & _).
  fold raw d2 in P4.
  destruct G as (Dne & Mne & Dz & Mz & _).
  rewrite (validateYear_accepts cfg _ raw y d2); auto; try (unfold d2; lia).
  rewrite clear_nothing; try (unfold d2; lia).
  - rewrite substring_0, firstn_all2 by lia. reflexivity.
  - destruct (firstField cfg d m); simpl; congruence.
Qed.

End Accept.

Section Partial.

Lemma no_slash_first (raw : jsstring) :
  countSlashes raw = 0 -> firstIs slash raw = false.
Proof.
  destruct raw as [|c raw]; auto. rewrite countSlashes_cons. simpl.
  fold (is_slash c). destruct (is_slash c); [lia | auto].
Qed.

Lemma restrictInput_no_separator (cfg : config) (s : state) (raw : jsstring) :
  countSlashes raw = 0 ->
  let v := stripIllegal raw in
  restrictInput cfg s raw =
    if gtNum (Number v) (firstMax cfg)
    then (withFields cfg s (storedFirst cfg s) [], firstn 10 (storedFirst cfg s))
    else (withFields cfg s (removeLeadingZero v) [],
          firstn 10 (removeLeadingZero v)).
Proof.
  intros H v.
  rewrite restrictInput_processWith.
  assert (D1 : findSlashPosition raw 1 = 0) by (apply findSlashFrom_missing; lia).
  assert (D2 : findSlashPosition raw 2 = 0) by (apply findSlashFrom_missing; lia).
  assert (C : checkSlashPosition raw = raw).
  { unfold checkSlashPosition. rewrite no_slash_first, H by auto. reflexivity. }
  rewrite D1, D2, C. fold v.
  destruct cfg as [fmt a b], s as [sd sm sy sdt].
  unfold processWith, rearrangeBasedOnDateFormat, validateMonthIfBeforeDay,
    validateDayIfBeforeMonth, clearSpecificPartOfDateIfEmpty, firstMax,
    withFields, storedFirst.
  cbn [absent Nat.eqb dateFormat].
  destruct fmt; norm.
  - destruct (gtNum (Number v) 12); norm; rewrite substring_0; auto.
    unfold sliceFrom. now rewrite skipn_all, app_nil_r.
  - destruct (gtNum (Number v) 31); norm; rewrite substring_0; auto.
    unfold sliceFrom. now rewrite skipn_all, app_nil_r.
Qed.

Variable cfg : config.
Variable s : state.
Variable f : jsstring.
Variable n : Z.
Hypothesis Hfne : f <> [].
Hypothesis Hfz : f <> [zero].
Hypothesis Hfn : Number f = Some n.
Hypothesis Hfmax : (n <= firstMax cfg)%Z.
Hypothesis Hfr : removeLeadingZero f = f.

Lemma first_accepts (rest : jsstring) :
  (match dateFormat cfg with
   | MDY => validateMonthIfBeforeDay s (f ++ rest) (length f)
   | DMY => validateDayIfBeforeMonth s (f ++ rest) (length f)
   end)
  = (match dateFormat cfg with MDY => setMonth s f | DMY => setDay s f end,
     f ++ rest).
Proof.
  unfold firstMax in Hfmax. destruct (dateFormat cfg).
  - now apply validateMonthIfBeforeDay_accepts with (a := n).
  - now apply validateDayIfBeforeMonth_accepts with (b := n).
Qed.

Lemma f_digits : forallb is_digit f = true.
Proof. eapply Number_digits; eauto. Qed.

Lemma f_present : absent (length f) = false.
Proof. apply absent_false. destruct f; simpl; congruence. Qed.

(** Shared shape of a text with exactly one separator. *)
Lemma restrictInput_one_separator_shape (g : jsstring) :
  forallb is_digit g = true ->
  restrictInput cfg s (f ++ slash :: g) =
    let (s1, v1) :=
      match dateFormat cfg with
      | MDY => validateDayIfAfterMonth (setMonth s f) (f ++ slash :: g) (length f) 0
      | DMY => validateMonthIfAfterDay (setDay s f) (f ++ slash :: g) (length f) 0
      end in
    (setYear s1 [], substring v1 0 10).
Proof.
  intros Hg.
  rewrite restrictInput_processWith.
  rewrite raw1_sanitised by (auto using f_digits).
  destruct (raw1_dividers f g f_digits Hg) as [-> ->].
  unfold processWith, rearrangeBasedOnDateFormat.
  pose proof (first_accepts (slash :: g)) as F.
  rewrite f_present.
  destruct (dateFormat cfg) eqn:Fmt; rewrite F; cbn [absent Nat.eqb].
  - destruct (validateDayIfAfterMonth _ _ _ _) as [s1 v1].
    unfold clearSpecificPartOfDateIfEmpty. rewrite Fmt, f_present.
    cbn [absent Nat.eqb]. destruct s1; reflexivity.
  - destruct (validateMonthIfAfterDay _ _ _ _) as [s1 v1].
    unfold clearSpecificPartOfDateIfEmpty. rewrite Fmt, f_present.
    cbn [absent Nat.eqb]. destruct s1; reflexivity.
Qed.

Lemma restrictInput_first_and_separator :
  length f < 10 ->
  restrictInput cfg s (f ++ [slash])
  = (withFields cfg s f (storedSecond cfg s), f ++ [slash]).
Proof.
  intros Hlen.
  change (f ++ [slash]) with (f ++ slash :: []).
  rewrite restrictInput_one_separator_shape by reflexivity.
  destruct (second_pieces_open f []) as (P1 & P2 & _).
  apply strictEq_false in Hfz.
  unfold withFields, storedSecond, validateDayIfAfterMonth, validateMonthIfAfterDay.
  destruct s as [sd sm sy sdt].
  destruct (dateFormat cfg); norm; rewrite Hfz; cbn [absent Nat.eqb];
    rewrite P1, P2; cbn [isEmpty]; norm;
    rewrite substring_0, firstn_all2; auto;
    rewrite length_app; simpl; lia.
Qed.

Lemma restrictInput_second_rejected (g : jsstring) :
  g <> [] -> forallb is_digit g = true -> secondRejected cfg f g = true ->
  restrictInput cfg s (f ++ slash :: g)
  = (withFields cfg s f (storedSecond cfg s),
     firstn 10 (f ++ slash :: storedSecond cfg s)).
Proof.
  intros Hgne Hg Hrej.
  rewrite restrictInput_one_separator_shape by auto.
  destruct (second_pieces_open f g) as (P1 & P2 & _).
  apply strictEq_false in Hfz. apply isEmpty_false in Hgne.
  unfold withFields, storedSecond, secondRejected, validateDayIfAfterMonth,
    validateMonthIfAfterDay in *.
  destruct s as [sd sm sy sdt].
  destruct (dateFormat cfg); norm; rewrite Hfz; cbn [absent Nat.eqb];
    rewrite P1, P2, Hgne, Hrej; norm;
    rewrite substring_0, <- app_assoc; reflexivity.
Qed.

End Partial.

Lemma restrictInput_day_and_month (cfg : config) (s : state) (d m : jsstring) :
  goodDayMonth d m ->
  let raw := firstField cfg d m ++ slash :: secondField cfg d m in
  length raw <= 10 ->
  restrictInput cfg s raw = (mkState d m [] (date s), raw).
Proof.
  intros G raw Hlen.
  destruct (goodDayMonth_digits d m G) as (Dd & Dm & b31 & Hb31 & Hle31).
  destruct G as (Dne & Mne & Dz & Mz & Dr & Mr & a & b & Hm & Hd & Ha & Hb).
  unfold raw, firstField, secondField in *.
  destruct s as [sd sm sy sdt].
  destruct (dateFormat cfg) eqn:Fmt.
  - rewrite (restrictInput_one_separator_shape cfg _ m a); auto;
      try (unfold firstMax; rewrite Fmt; auto).
    rewrite ?Fmt.
    destruct (second_pieces_open m d) as (P1 & P2 & P3).
    rewrite (validateDayIfAfterMonth_accepts _ _ d _ _ b); auto.
    + rewrite substring_0, firstn_all2 by auto. reflexivity.
    + cbn [month setMonth]. rewrite P1, P3, <- app_assoc, app_nil_r. reflexivity.
  - rewrite (restrictInput_one_separator_shape cfg _ d b31); auto;
      try (unfold firstMax; rewrite Fmt; auto).
    rewrite ?Fmt.
    destruct (second_pieces_open d m) as (P1 & P2 & P3).
    rewrite (validateMonthIfAfterDay_accepts _ _ m _ _ a b); auto.
    + rewrite substring_0, firstn_all2 by auto. reflexivity.
    + cbn [day setDay]. rewrite P1, P3, <- app_assoc, app_nil_r. reflexivity.
Qed.

(** X13, [restrictInput] on a text without separator: illegal characters
    are dropped; if the remaining digits exceed the maximum of the first
    field (12 for a month, 31 for a day) the stored first field is shown
    again, else the normalised digits are stored and shown; the second
    field and the year are emptied; the display is cut to 10 characters. *)
Theorem restrictInput_digits_only (cfg : config) (s : state) (raw : jsstring) :
  countSlashes raw = 0 ->
  let v := stripIllegal raw in
  restrictInput cfg s raw =
    if gtNum (Number v) (firstMax cfg)
    then (withFields cfg s (storedFirst cfg s) [], firstn 10 (storedFirst cfg s))
    else (withFields cfg s (removeLeadingZero v) [],
          firstn 10 (removeLeadingZero v)).
Proof. apply restrictInput_no_separator. Qed.

Lemma restrictInput_digits_only_witness :
  restrictInput defaultConfig (mkState (js "5") (js "1") (js "2020") []) (js "1x3")
  = (mkState [] (js "1") [] [], js "1").
Proof.
  apply (restrictInput_digits_only defaultConfig
           (mkState (js "5") (js "1") (js "2020") []) (js "1x3")).
  reflexivity.
Defined.

(** X14, [restrictInput] on a valid first field followed by a separator:
    a non-empty first field in normal form, other than "0" and within its
    maximum, is stored and the text is returned unchanged; the second field
    keeps its stored value and the year is emptied. *)
Theorem restrictInput_first_field_closed (cfg : config) (s : state)
    (f : jsstring) (n : Z) :
  f <> [] -> f <> js "0" -> Number f = Some n -> (n <= firstMax cfg)%Z ->
  removeLeadingZero f = f -> length f < 10 ->
  restrictInput cfg s (f ++ js "/")
  = (withFields cfg s f (storedSecond cfg s), f ++ js "/").
Proof.
  intros. now apply restrictInput_first_and_separator with (n := n).
Qed.

Lemma restrictInput_first_field_closed_witness :
  restrictInput (mkConfig DMY 1000 9999) (mkState [] (js "7") [] []) (js "31/")
  = (mkState (js "31") (js "7") [] [], js "31/").
Proof.
  apply (restrictInput_first_field_closed (mkConfig DMY 1000 9999)
           (mkState [] (js "7") [] []) (js "31") 31%Z);
    try discriminate; try reflexivity; simpl; lia.
Defined.

(** X15, [restrictInput] on a second field out of range (a day above the
    number of days of the month just typed; or, for 'dd/mm/yyyy', a month
    above 12 or one too short for the day): the first field is stored, the
    second field keeps its stored value, and the display is the first
    field, the separator and that stored value, cut to 10 characters. *)
Theorem restrictInput_second_field_put_back (cfg : config) (s : state)
    (f g : jsstring) (n : Z) :
  f <> [] -> f <> js "0" -> Number f = Some n -> (n <= firstMax cfg)%Z ->
  removeLeadingZero f = f ->
  g <> [] -> forallb is_digit g = true -> secondRejected cfg f g = true ->
  restrictInput cfg s (f ++ js "/" ++ g)
  = (withFields cfg s f (storedSecond cfg s),
     firstn 10 (f ++ js "/" ++ storedSecond cfg s)).
Proof.
  intros. now apply restrictInput_second_rejected with (n := n).
Qed.

Lemma restrictInput_second_field_put_back_witness :
  restrictInput defaultConfig (mkState (js "3") (js "1") [] []) (js "02/31")
  = (mkState (js "3") (js "02") [] [], js "02/3").
Proof.
  apply (restrictInput_second_field_put_back defaultConfig
           (mkState (js "3") (js "1") [] []) (js "02") (js "31") 2%Z);
    try discriminate; try reflexivity; simpl; lia.
Defined.

Lemma good_31_12 : goodDayMonth (js "31") (js "12").
Proof.
  unfold goodDayMonth.
  do 6 (split; [first [discriminate | reflexivity]|]).
  exists 12%Z, 31%Z.
  split; [reflexivity|]. split; [reflexivity|]. split; discriminate.
Defined.

Lemma goodYear_1999 : goodYear (mkConfig DMY 1000 9999) (js "31") (js "12") (js "1999").
Proof.
  split; [reflexivity|].
  exists 1999%Z.
  split; [reflexivity|]. split; [discriminate|]. split; [discriminate|].
  intros H. vm_compute in H. discriminate H.
Defined.

(** X16, [restrictInput] on a valid day and month in normal form joined
    by one separator, in the order of the format: both are stored, the
    year is emptied and the text is returned unchanged, whatever was
    stored before. *)
Theorem restrictInput_accepts_day_and_month (cfg : config) (s : state)
    (d m : jsstring) :
  goodDayMonth d m ->
  let raw := firstField cfg d m ++ js "/" ++ secondField cfg d m in
  length raw <= 10 ->
  restrictInput cfg s raw = (mkState d m [] (date s), raw).
Proof. apply restrictInput_day_and_month. Qed.

Lemma restrictInput_accepts_day_and_month_witness :
  restrictInput defaultConfig initial (js "12/31")
  = (mkState (js "31") (js "12") [] [], js "12/31").
Proof.
  apply (restrictInput_accepts_day_and_month defaultConfig initial
           (js "31") (js "12") good_31_12).
  simpl. lia.
Defined.

(** X17, [restrictInput] on a valid date in normal form (day, month and
    an acceptable year, complete or partial, in the order of the format):
    the three fields are stored as typed and the text is returned
    unchanged, whatever was stored before. *)
Theorem restrictInput_accepts_complete_date (cfg : config) (s : state)
    (d m y : jsstring) :
  goodDayMonth d m -> goodYear cfg d m y ->
  let raw := firstField cfg d m ++ js "/" ++ secondField cfg d m ++ js "/" ++ y in
  length raw <= 10 ->
  restrictInput cfg s raw = (mkState d m y (date s), raw).
Proof. apply restrictInput_complete. Qed.

Lemma restrictInput_accepts_complete_date_witness :
  restrictInput (mkConfig DMY 1000 9999) initial (js "31/12/1999")
  = (mkState (js "31") (js "12") (js "1999") [], js "31/12/1999").
Proof.
  apply (restrictInput_accepts_complete_date (mkConfig DMY 1000 9999) initial
           (js "31") (js "12") (js "1999") good_31_12 goodYear_1999).
  simpl. lia.
Defined.


(** ** Leaving the field *)

Section Handlers.

Lemma few_slashes_no_second (raw : jsstring) :
  countSlashes raw < 2 -> findSlashPosition raw 2 = 0.
Proof. intros H. apply findSlashFrom_missing. lia. Qed.

Lemma restrictInput_year_cleared (cfg : config) (s : state) (raw : jsstring) :
  findSlashPosition raw 2 = 0 -> year (fst (restrictInput cfg s raw)) = [].
Proof.
  intros H. unfold restrictInput. rewrite H.
  destruct (rearrangeBasedOnDateFormat _ _ _ _ _) as [s1 v1].
  cbn [absent Nat.eqb fst]. unfold clearSpecificPartOfDateIfEmpty.
  reflexivity.
Qed.

Lemma restrictInput_date (cfg : config) (s : state) (raw : jsstring) :
  date (fst (restrictInput cfg s raw)) = date s.
Proof. now destruct (restrictInput_step cfg s raw) as (_ & _ & _ & H). Qed.

Lemma onBlur_unfold (cfg : config) (s : state) (raw : jsstring) :
  onBlur cfg s raw
  = clearDateIfNotValid cfg (fst (restrictInput cfg s raw))
      (snd (restrictInput cfg s raw)).
Proof.
  unfold onBlur, updateDate. now destruct (restrictInput cfg s raw).
Qed.

End Handlers.

(** X18, [onBlur]: with a positive [startYear], leaving the field on a
    text with fewer than two separators always empties the field; the
    stored fields are those of the keystroke and the committed date is
    left as it was. *)
Theorem onBlur_clears_incomplete (cfg : config) (s : state) (raw : jsstring) :
  (0 < startYear cfg)%Z -> countSlashes raw < 2 ->
  snd (onBlur cfg s raw) = [] /\
  fst (onBlur cfg s raw) = fst (restrictInput cfg s raw) /\
  date (fst (onBlur cfg s raw)) = date s.
Proof.
  intros Hs Hc.
  pose proof (restrictInput_year_cleared cfg s raw (few_slashes_no_second raw Hc)) as Y.
  pose proof (restrictInput_date cfg s raw) as D.
  rewrite onBlur_unfold. unfold clearDateIfNotValid. rewrite Y.
  assert (ltNum (Number []) (startYear cfg) = true) as ->
      by (simpl; apply Z.ltb_lt; lia).
  rewrite orb_true_r. simpl. auto.
Qed.

Lemma onBlur_clears_incomplete_witness :
  snd (onBlur defaultConfig initial (js "12/31")) = [] /\
  fst (onBlur defaultConfig initial (js "12/31"))
  = fst (restrictInput defaultConfig initial (js "12/31")) /\
  date (fst (onBlur defaultConfig initial (js "12/31"))) = date initial.
Proof.
  apply onBlur_clears_incomplete; [simpl; lia | vm_compute; lia].
Defined.

(** X19, [onBlur]: if the field is not empty after blur then the date was
    committed as day/month/year from non-empty day and month and a year
    that is neither below [startYear] nor above [endYear], and the field
    shows the text of the keystroke, at most 10 characters. *)
Theorem onBlur_shown_is_committed (cfg : config) (s : state) (raw : jsstring) :
  snd (onBlur cfg s raw) <> [] ->
  let s' := fst (onBlur cfg s raw) in
  date s' = day s' ++ js "/" ++ month s' ++ js "/" ++ year s' /\
  day s' <> [] /\ month s' <> [] /\
  ltNum (Number (year s')) (startYear cfg) = false /\
  gtNum (Number (year s')) (endYear cfg) = false /\
  snd (onBlur cfg s raw) = snd (restrictInput cfg s raw) /\
  length (snd (onBlur cfg s raw)) <= 10.
Proof.
  rewrite onBlur_unfold. unfold clearDateIfNotValid.
  pose proof (restrictInput_display_length cfg s raw) as L.
  destruct (restrictInput cfg s raw) as [s1 v1]. cbn [fst snd] in *.
  destruct (isEmpty (day s1)) eqn:D; [simpl; congruence|].
  destruct (isEmpty (month s1)) eqn:M; [simpl; congruence|].
  destruct (ltNum (Number (year s1)) (startYear cfg)) eqn:A; [simpl; congruence|].
  destruct (gtNum (Number (year s1)) (endYear cfg)) eqn:B; [simpl; congruence|].
  cbn [orb fst snd]. intros _. cbv zeta.
  apply isEmpty_false in D, M.
  destruct s1; cbn in *. repeat split; auto.
Qed.

Lemma onBlur_shown_is_committed_witness :
  let s' := fst (onBlur defaultConfig initial (js "12/31/2020")) in
  date s' = day s' ++ js "/" ++ month s' ++ js "/" ++ year s' /\
  day s' <> [] /\ month s' <> [] /\
  ltNum (Number (year s')) (startYear defaultConfig) = false /\
  gtNum (Number (year s')) (endYear defaultConfig) = false /\
  snd (onBlur defaultConfig initial (js "12/31/2020"))
  = snd (restrictInput defaultConfig initial (js "12/31/2020")) /\
  length (snd (onBlur defaultConfig initial (js "12/31/2020"))) <= 10.
Proof.
  apply onBlur_shown_is_committed. vm_compute. discriminate.
Defined.

(** X20, [onBlur] on a valid date in normal form whose year is not below
    [startYear]: the date is committed as day/month/year, in that order for
    either format, and the field keeps the text typed. *)
Theorem onBlur_commits_complete_date (cfg : config) (s : state)
    (d m y : jsstring) :
  goodDayMonth d m -> goodYear cfg d m y ->
  ltNum (Number y) (startYear cfg) = false ->
  let raw := firstField cfg d m ++ js "/" ++ secondField cfg d m ++ js "/" ++ y in
  length raw <= 10 ->
  onBlur cfg s raw = (mkState d m y (d ++ js "/" ++ m ++ js "/" ++ y), raw).
Proof.
  intros G Y Hs raw Hlen.
  rewrite onBlur_unfold.
  pose proof (restrictInput_complete cfg s d m y G Y) as R. cbv zeta in R.
  unfold raw in *. change (js "/") with [slash] in *. cbn [app] in *.
  rewrite R by exact Hlen. cbn [fst snd].
  unfold clearDateIfNotValid. cbn [day month year].
  destruct G as (Dne & Mne & _). apply isEmpty_false in Dne, Mne.
  destruct Y as (_ & c & Hn & He & _).
  rewrite Dne, Mne, Hs, Hn, (gtNum_le c _ He). reflexivity.
Qed.

Lemma onBlur_commits_complete_date_witness :
  onBlur (mkConfig DMY 1000 9999) initial (js "31/12/1999")
  = (mkState (js "31") (js "12") (js "1999") (js "31/12/1999"), js "31/12/1999").
Proof.
  apply (onBlur_commits_complete_date (mkConfig DMY 1000 9999) initial
           (js "31") (js "12") (js "1999") good_31_12 goodYear_1999 eq_refl).
  simpl. lia.
Defined.


(** ** The sentinel "0" *)

Section Sentinel.

Lemma legal_stripIllegal (s : jsstring) :
  forallb (fun c => is_digit c || is_slash c) s = true -> stripIllegal s = s.
Proof.
  induction s as [|c s IH]; intros H; auto.
  simpl in H. apply andb_true_iff in H. destruct H as [Hc Hs].
  unfold stripIllegal in *. cbn [filter]. rewrite Hc. now rewrite IH.
Qed.

End Sentinel.

(** X21, [restrictInput] on a text that starts with "0/": the first field
    is stored as the sentinel "0", the separator and everything after it
    are dropped from the display, and the second field keeps its stored
    value. *)
Theorem restrictInput_zero_first_field (cfg : config) (s : state) (rest : jsstring) :
  forallb (fun c => is_digit c || is_slash c) rest = true ->
  countSlashes rest <= 1 ->
  let r := restrictInput cfg s (js "0/" ++ rest) in
  snd r = js "0" /\
  storedFirst cfg (fst r) = js "0" /\
  storedSecond cfg (fst r) = storedSecond cfg s.
Proof.
  intros Hl Hc r. unfold r. clear r.
  rewrite restrictInput_processWith.
  change (js "0/" ++ rest) with (zero :: slash :: rest).
  assert (D1 : findSlashPosition (zero :: slash :: rest) 1 = 1) by reflexivity.
  assert (C : checkSlashPosition (zero :: slash :: rest) = zero :: slash :: rest).
  { unfold checkSlashPosition. cbn [firstIs].
    change (Ascii.eqb zero slash) with false. cbv iota.
    rewrite !countSlashes_cons.
    change (is_slash zero) with false. change (is_slash slash) with true.
    cbv iota.
    assert ((2 <? 0 + (1 + countSlashes rest)) = false) as ->
        by (apply Nat.ltb_ge; lia).
    reflexivity. }
  assert (S : stripIllegal (zero :: slash :: rest) = zero :: slash :: rest).
  { apply legal_stripIllegal. cbn [forallb]. now rewrite Hl. }
  rewrite D1, C, S.
  generalize (findSlashPosition (zero :: slash :: rest) 2) as d2. intros d2.
  set (raw := zero :: slash :: rest).
  assert (Cut : forall st, strictEq (storedFirst cfg st) [zero] = true ->
            (if absent d2 then (st, [zero]) else validateYear cfg st [zero] d2)
            = (st, [zero])).
  { intros st Hst. destruct (absent d2) eqn:A2; auto.
    unfold validateYear. rewrite A2.
    assert (strictEq (day st) [zero] || strictEq (month st) [zero] = true) as ->.
    { unfold storedFirst in Hst. destruct (dateFormat cfg); rewrite Hst;
        auto using orb_true_r. }
    apply absent_false in A2. destruct d2 as [|d2]; [congruence|].
    rewrite slice_0. cbn [firstn]. now rewrite firstn_nil. }
  assert (Clear : forall st,
            storedFirst cfg (clearSpecificPartOfDateIfEmpty cfg st 1 d2)
            = storedFirst cfg st /\
            storedSecond cfg (clearSpecificPartOfDateIfEmpty cfg st 1 d2)
            = storedSecond cfg st).
  { intros st. unfold clearSpecificPartOfDateIfEmpty, storedFirst, storedSecond.
    destruct (dateFormat cfg); split; reflexivity. }
  unfold processWith, rearrangeBasedOnDateFormat.
  destruct (dateFormat cfg) eqn:Fmt.
  - assert (V1 : validateMonthIfBeforeDay s raw 1 = (setMonth s [zero], raw))
      by reflexivity.
    rewrite V1. cbn [absent Nat.eqb].
    assert (V2 : validateDayIfAfterMonth (setMonth s [zero]) raw 1 d2
                 = (setMonth s [zero], [zero])) by reflexivity.
    rewrite V2, Cut by (unfold storedFirst; rewrite Fmt; reflexivity).
    destruct (Clear (setMonth s [zero])) as [A B]. cbn [fst snd].
    rewrite A, B. unfold storedFirst, storedSecond. rewrite Fmt.
    repeat split; reflexivity.
  - assert (V1 : validateDayIfBeforeMonth s raw 1 = (setDay s [zero], raw))
      by reflexivity.
    rewrite V1. cbn [absent Nat.eqb].
    assert (V2 : validateMonthIfAfterDay (setDay s [zero]) raw 1 d2
                 = (setDay s [zero], [zero])) by reflexivity.
    rewrite V2, Cut by (unfold storedFirst; rewrite Fmt; reflexivity).
    destruct (Clear (setDay s [zero])) as [A B]. cbn [fst snd].
    rewrite A, B. unfold storedFirst, storedSecond. rewrite Fmt.
    repeat split; reflexivity.
Qed.

Lemma restrictInput_zero_first_field_witness :
  let r := restrictInput defaultConfig initial (js "0/15/2020") in
  snd r = js "0" /\
  storedFirst defaultConfig (fst r) = js "0" /\
  storedSecond defaultConfig (fst r) = storedSecond defaultConfig initial.
Proof.
  apply (restrictInput_zero_first_field defaultConfig initial (js "15/2020")).
  - reflexivity.
  - vm_compute. lia.
Defined.
